(** * The GCP IP-range crawler (iyp/crawlers/google/gcp_ip_ranges.py)

    A shallow embedding of [Crawler.run]: the crawler downloads Google
    Cloud's published prefix list, flattens it into records, registers
    GeoPrefix / Tag / Country nodes through the graph client and links
    every prefix to its service tag and to the country of its region.

    Python dictionaries and sets are stdpp's [gmap] and [gset]; the
    method body is written in a state-and-exception monad over the
    crawler object, and every [d[k]] is a lookup that may raise
    [KeyError].  The graph client ([self.iyp]) is an interface: the
    crawler is verified against every implementation of it. *)

From Stdlib Require Import Ascii String.
From stdpp Require Import base gmap sets list strings pretty.

(* stdpp's solvers clear hypotheses that can already be gone. *)
Set Warnings "-clear-no-such-hyp".

Open Scope string_scope.
Open Scope list_scope.
Open Scope Z_scope.

(** ** Module constants *)

Definition URL : string := "https://www.gstatic.com/ipranges/cloud.json".
Definition ORG : string := "Google".
Definition NAME : string := "google.gcp_ip_ranges".

(** The dictionary literal, in source order. *)
Definition REGION_TO_COUNTRY_items : list (string * string) :=
  [ ("africa-south1", "ZA");
    ("asia-east1", "TW");
    ("asia-east2", "HK");
    ("asia-northeast1", "JP");
    ("asia-northeast2", "JP");
    ("asia-northeast3", "KR");
    ("asia-south1", "IN");
    ("asia-south2", "IN");
    ("asia-southeast1", "SG");
    ("asia-southeast2", "ID");
    ("australia-southeast1", "AU");
    ("australia-southeast2", "AU");
    ("europe-central2", "PL");
    ("europe-north1", "FI");
    ("europe-north2", "SE");
    ("europe-southwest1", "ES");
    ("europe-west1", "BE");
    ("europe-west2", "GB");
    ("europe-west3", "DE");
    ("europe-west4", "NL");
    ("europe-west6", "CH");
    ("europe-west8", "IT");
    ("europe-west9", "FR");
    ("europe-west10", "DE");
    ("europe-west12", "IT");
    ("me-central1", "QA");
    ("me-central2", "SA");
    ("me-west1", "IL");
    ("northamerica-northeast1", "CA");
    ("northamerica-northeast2", "CA");
    ("northamerica-south1", "MX");
    ("us-central1", "US");
    ("us-east1", "US");
    ("us-east4", "US");
    ("us-east5", "US");
    ("us-south1", "US");
    ("us-west1", "US");
    ("us-west2", "US");
    ("us-west3", "US");
    ("us-west4", "US");
    ("southamerica-east1", "BR");
    ("southamerica-west1", "CL") ].

Definition REGION_TO_COUNTRY : gmap string string :=
  list_to_map REGION_TO_COUNTRY_items.

(** ** Data *)

(** Exceptions the method can meet.  [JSONDecodeError] is the error of
    [resp.json()], in Python a subclass of [ValueError]; any other
    exception [requests.get] raises when no response arrives is a
    [RequestException]. *)
Inductive Exn : Type :=
| KeyError (key : string)
| ValueError (msg : string)
| TypeError (msg : string)
| HTTPError (status : Z)
| JSONDecodeError
| RequestException (msg : string).

(** [isinstance(e, ValueError)]. *)
Definition is_ValueError (e : Exn) : bool :=
  match e with
  | ValueError _ | JSONDecodeError => true
  | _ => false
  end.

Inductive Res (A : Type) : Type :=
| Ok (a : A)
| Raise (e : Exn).
Arguments Ok {A} a.
Arguments Raise {A} e.

(** [datetime.datetime]; [tzinfo] is the UTC offset in seconds of an aware
    value and [None] for a naive one. *)
Record datetime : Type := mk_datetime {
  year : Z; month : Z; day : Z;
  hour : Z; minute : Z; second : Z; microsecond : Z;
  tzinfo : option Z
}.

Definition timezone_utc : Z := 0.

(** [dt.replace(tzinfo=tz)]: the wall-clock fields are kept. *)
Definition replace_tzinfo (dt : datetime) (tz : Z) : datetime :=
  {| year := year dt; month := month dt; day := day dt;
     hour := hour dt; minute := minute dt; second := second dt;
     microsecond := microsecond dt; tzinfo := Some tz |}.

(** Values stored in the reference dictionary. *)
Inductive PropVal : Type :=
| PStr (s : string)
| PTime (d : datetime).

(** [self.reference], a dictionary with string keys. *)
Abbreviation Reference := (gmap string PropVal).

(** One element of [data['prefixes']]: a JSON object whose values are
    strings (ipv4Prefix, ipv6Prefix, service, scope). *)
Abbreviation Entry := (gmap string string).

(** The decoded body in the shape the feed documents:
    [{creationTime?: string, prefixes?: [entry]}].  A body whose
    creationTime is of another JSON type is a [JsonBody], below. *)
Record Data : Type := mk_Data {
  creationTime : option string;
  prefixes : option (list Entry)
}.

(** A response that has arrived: the status code and the body, [None]
    when the body is not JSON.  The case that [requests.get] raises is
    part of [run_json], below. *)
Record Response : Type := mk_Response {
  status_code : Z;
  json : option Data
}.

(** The flattened record appended to [items]. *)
Record Item : Type := mk_Item {
  prefix : string;
  service : string;
  scope : string;
  af : Z
}.

(** An element of [categorized_links] / [country_links]. *)
Record Link : Type := mk_Link {
  src_id : Z;
  dst_id : Z;
  props : list Reference
}.

Inductive Level : Type := DEBUG | INFO | WARNING.

(** ** The graph client *)

(** The three methods of [self.iyp] that [run] calls, for a client whose
    calls return.  Each one acts on the graph store; get-or-create also
    answers with a dictionary from property value to node id.  The keys
    are handed over as a finite set: the order in which a Python set
    would be iterated is not part of it. *)
Class IYP (Store : Type) : Type := {
  batch_get_nodes_by_single_prop :
    string → string → gset string → bool → Store → gmap string Z * Store;
  batch_add_node_label : list Z → string → Store → Store;
  batch_add_links : string → list Link → Store → Store
}.

(** A call made on the client, with what it answered. *)
Inductive Call : Type :=
| GetNodes (label prop : string) (keys : gset string) (all : bool)
           (reply : gmap string Z)
| AddNodeLabel (ids : list Z) (label : string)
| AddLinks (kind : string) (links : list Link).

(** The crawler object during a run: its reference, the store behind its
    client, and the history of log records and client calls. *)
Record Crawler (Store : Type) : Type := mk_Crawler {
  reference : Reference;
  iyp : Store;
  logged : list (Level * string);
  calls : list Call
}.
Arguments mk_Crawler {Store}.
Arguments reference {Store}.
Arguments iyp {Store}.
Arguments logged {Store}.
Arguments calls {Store}.

(** ** The monad of the method body *)

Definition M (Store A : Type) : Type := Crawler Store → Res (A * Crawler Store).

Definition ret {Store A} (a : A) : M Store A := λ s, Ok (a, s).

Definition bind {Store A B} (m : M Store A) (k : A → M Store B) : M Store B :=
  λ s, match m s with
       | Ok (a, s') => k a s'
       | Raise e => Raise e
       end.

Definition raise {Store A} (e : Exn) : M Store A := λ _, Raise e.

Declare Scope crawl_scope.
Delimit Scope crawl_scope with crawl.
Notation "x ← y ; z" := (bind y (λ x, z))
  (at level 20, y at level 100, z at level 200, only parsing) : crawl_scope.
Notation "' x ← y ; z" := (bind y (λ x, z))
  (at level 20, x pattern, y at level 100, z at level 200, only parsing) : crawl_scope.
Notation "x ;; z" := (bind x (λ _, z))
  (at level 100, z at level 200, only parsing, right associativity) : crawl_scope.

(** [try: body except ValueError: handler].  The bodies guarded this way
    raise before they assign, so resuming from the entry state is exact. *)
Definition try_except_ValueError {Store A}
    (body handler : M Store A) : M Store A :=
  λ s, match body s with
       | Raise e => if is_ValueError e then handler s else Raise e
       | r => r
       end.

(** [for x in xs: body], with the local variables the body updates. *)
Fixpoint for_each {Store A V} (xs : list A) (vars : V)
    (body : A → V → M Store V) : M Store V :=
  match xs with
  | [] => ret vars
  | x :: xs' => bind (body x vars) (λ vars', for_each xs' vars' body)
  end.

(** [k in d] and [d[k]] on a dictionary. *)
Definition contains {V} (d : gmap string V) (k : string) : bool :=
  bool_decide (is_Some (d !! k)).

Definition getitem {Store V} (d : gmap string V) (k : string) : M Store V :=
  match d !! k with
  | Some v => ret v
  | None => raise (KeyError k)
  end.

(** [d.get(k, dflt)]. *)
Definition dict_get {V} (d : gmap string V) (k : string) (dflt : V) : V :=
  default dflt (d !! k).

(** The same three on the decoded body, whose two keys have fixed types. *)
Definition getitem_creationTime {Store} (data : Data) : M Store string :=
  match creationTime data with
  | Some t => ret t
  | None => raise (KeyError "creationTime")
  end.

(** [logging.<level>(msg)]. *)
Definition logging {Store} (lvl : Level) (msg : string) : M Store unit :=
  λ s, Ok (tt, mk_Crawler (reference s) (iyp s) (logged s ++ [(lvl, msg)]) (calls s)).

(** [self.reference[k] = v] and reading [self.reference]. *)
Definition set_reference {Store} (k : string) (v : PropVal) : M Store unit :=
  λ s, Ok (tt, mk_Crawler (<[k := v]> (reference s)) (iyp s) (logged s) (calls s)).

Definition self_reference {Store} : M Store Reference :=
  λ s, Ok (reference s, s).

(** [resp.raise_for_status()] and [resp.json()]. *)
Definition raise_for_status {Store} (resp : Response) : M Store unit :=
  if bool_decide (400 ≤ status_code resp < 600)
  then raise (HTTPError (status_code resp))
  else ret tt.

Definition resp_json {Store} (resp : Response) : M Store Data :=
  match json resp with
  | Some data => ret data
  | None => raise JSONDecodeError
  end.

(** The client's methods as steps of the method body. *)
Definition iyp_batch_get_nodes_by_single_prop `{IYP Store}
    (label prop : string) (keys : gset string) (all : bool)
  : M Store (gmap string Z) :=
  λ s, let '(reply, st) := batch_get_nodes_by_single_prop label prop keys all (iyp s) in
       Ok (reply, mk_Crawler (reference s) st (logged s)
                     (calls s ++ [GetNodes label prop keys all reply])).

Definition iyp_batch_add_node_label `{IYP Store}
    (ids : list Z) (label : string) : M Store unit :=
  λ s, Ok (tt, mk_Crawler (reference s) (batch_add_node_label ids label (iyp s))
                  (logged s) (calls s ++ [AddNodeLabel ids label])).

Definition iyp_batch_add_links `{IYP Store}
    (kind : string) (links : list Link) : M Store unit :=
  λ s, Ok (tt, mk_Crawler (reference s) (batch_add_links kind links (iyp s))
                  (logged s) (calls s ++ [AddLinks kind links])).

(** [list(d.values())]. *)
Definition dict_values {V} (d : gmap string V) : list V :=
  (map_to_list d).*2.

(** ** Crawler.run *)

Section run.
Context {Store : Type} `{!IYP Store}.

(** [datetime.fromisoformat]; [None] stands for its [ValueError]. *)
Variable fromisoformat : string → option datetime.

Local Open Scope crawl_scope.
Local Abbreviation M := (M Store).

Definition datetime_fromisoformat (t : string) : M datetime :=
  match fromisoformat t with
  | Some dt => ret dt
  | None => raise (ValueError ("Invalid isoformat string: " +:+ t))
  end.

(** Lines 86-93: creationTime becomes reference_time_modification. *)
Definition parse_creation_time (data : Data) : M unit :=
  if bool_decide (is_Some (creationTime data)) then
    try_except_ValueError
      (t ← getitem_creationTime data;
       dt ← datetime_fromisoformat t;
       set_reference "reference_time_modification"
                     (PTime (replace_tzinfo dt timezone_utc)))
      (t ← getitem_creationTime data;
       logging WARNING ("Could not parse creationTime: " +:+ t))
  else ret tt.

(** Lines 98-111: the body of the extraction loop. *)
Definition parse_body (item : Entry) (items : list Item) : M (list Item) :=
  items ← (if contains item "ipv4Prefix" then
             p ← getitem item "ipv4Prefix";
             ret (items ++ [ {| prefix := p;
                                service := dict_get item "service" "Google Cloud";
                                scope := dict_get item "scope" EmptyString;
                                af := 4 |} ])
           else ret items);
  if contains item "ipv6Prefix" then
    p ← getitem item "ipv6Prefix";
    ret (items ++ [ {| prefix := p;
                       service := dict_get item "service" "Google Cloud";
                       scope := dict_get item "scope" EmptyString;
                       af := 6 |} ])
  else ret items.

(** Lines 96-111. *)
Definition parse_prefixes (data : Data) : M (list Item) :=
  for_each (default [] (prefixes data)) [] parse_body.

(** Lines 121-127: the body of the collection loop, on the three sets. *)
Definition collect_body (item : Item)
    (sets : gset string * gset string * gset string)
  : M (gset string * gset string * gset string) :=
  let '(prefixes, services, countries) := sets in
  let prefixes := prefixes ∪ {[ prefix item ]} in
  let services := services ∪ {[ service item ]} in
  let scope := scope item in
  if contains REGION_TO_COUNTRY scope then
    cc ← getitem REGION_TO_COUNTRY scope;
    ret (prefixes, services, countries ∪ {[ cc ]})
  else if bool_decide (scope ≠ EmptyString) then
    logging DEBUG ("Unknown GCP region/scope: " +:+ scope);;
    ret (prefixes, services, countries)
  else ret (prefixes, services, countries).

(** Lines 115-127. *)
Definition collect_unique (items : list Item)
  : M (gset string * gset string * gset string) :=
  for_each items (∅, ∅, ∅) collect_body.

(** Lines 150-174: the body of the relationship loop. *)
Definition link_body (prefix_id tag_id country_id : gmap string Z)
    (item : Item) (links : list Link * list Link)
  : M (list Link * list Link) :=
  let '(categorized_links, country_links) := links in
  let prefix := prefix item in
  if negb (contains prefix_id prefix) then ret (categorized_links, country_links)
  else
    p_id ← getitem prefix_id prefix;
    let service := service item in
    categorized_links ←
      (if contains tag_id service then
         t ← getitem tag_id service;
         ref ← self_reference;
         ret (categorized_links ++
                [ {| src_id := p_id; dst_id := t; props := [ref] |} ])
       else ret categorized_links);
    let scope := scope item in
    if contains REGION_TO_COUNTRY scope then
      cc ← getitem REGION_TO_COUNTRY scope;
      if contains country_id cc then
        c ← getitem country_id cc;
        ref ← self_reference;
        ret (categorized_links,
             country_links ++
               [ {| src_id := p_id; dst_id := c; props := [ref] |} ])
      else ret (categorized_links, country_links)
    else ret (categorized_links, country_links).

(** Lines 145-174. *)
Definition prepare_relationships (prefix_id tag_id country_id : gmap string Z)
    (items : list Item) : M (list Link * list Link) :=
  for_each items ([], []) (link_body prefix_id tag_id country_id).

(** Lines 77-183, from a response that has arrived and whose body, when
    it decodes, has the documented shape. *)
Definition run (resp : Response) : M unit :=
  logging INFO ("Fetching GCP IP ranges from " +:+ URL);;
  raise_for_status resp;;
  data ← resp_json resp;
  parse_creation_time data;;
  items ← parse_prefixes data;
  logging INFO ("Processing " +:+ pretty (length items) +:+ " prefixes");;
  ' (prefixes, services, countries) ← collect_unique items;
  logging INFO ("Creating " +:+ pretty (size prefixes) +:+ " GeoPrefix nodes");;
  prefix_id ← iyp_batch_get_nodes_by_single_prop "GeoPrefix" "prefix" prefixes false;
  iyp_batch_add_node_label (dict_values prefix_id) "Prefix";;
  tag_id ← iyp_batch_get_nodes_by_single_prop "Tag" "label" services false;
  country_id ← iyp_batch_get_nodes_by_single_prop "Country" "country_code" countries false;
  ' (categorized_links, country_links) ←
      prepare_relationships prefix_id tag_id country_id items;
  logging INFO ("Creating " +:+ pretty (length categorized_links)
                +:+ " CATEGORIZED relationships");;
  iyp_batch_add_links "CATEGORIZED" categorized_links;;
  logging INFO ("Creating " +:+ pretty (length country_links)
                +:+ " COUNTRY relationships");;
  iyp_batch_add_links "COUNTRY" country_links;;
  logging INFO ("Finished processing GCP IP ranges: "
                +:+ pretty (length items) +:+ " prefixes").

End run.

(** ** Crawler.run on any decoded body *)

(** The value under a key of the decoded body, as far as its Python type
    matters to the method: a [str], or anything else (a number, a boolean,
    null, a list, an object), kept by the text [str()] gives for it. *)
Inductive JValue : Type :=
| JString (s : string)
| JNotString (text : string).

(** The decoded body with creationTime of any JSON type. *)
Record JsonBody : Type := mk_JsonBody {
  json_creationTime : option JValue;
  json_prefixes : option (list Entry)
}.

Record JsonResponse : Type := mk_JsonResponse {
  json_status_code : Z;
  json_body : option JsonBody
}.

(** A body of the documented shape as a decoded body, and back. *)
Definition json_of_data (data : Data) : JsonBody :=
  {| json_creationTime := JString <$> creationTime data;
     json_prefixes := prefixes data |}.

Definition json_of_response (resp : Response) : JsonResponse :=
  {| json_status_code := status_code resp;
     json_body := json_of_data <$> json resp |}.

(** A successful download of [body]. *)
Definition json_ok (body : JsonBody) : JsonResponse :=
  {| json_status_code := 200; json_body := Some body |}.

(** [f'{v}'] for the value under a key. *)
Definition format_value (v : JValue) : string :=
  match v with
  | JString s => s
  | JNotString text => text
  end.

Section run_json.
Context {Store : Type} `{!IYP Store}.

(** [datetime.fromisoformat]; [None] stands for its [ValueError]. *)
Variable fromisoformat : string → option datetime.

Local Open Scope crawl_scope.
Local Abbreviation M := (M Store).

(** [requests.get(URL)]: the response, or the exception raised when
    none arrives. *)
Definition requests_get (got : Res JsonResponse) : M JsonResponse :=
  match got with
  | Ok resp => ret resp
  | Raise e => raise e
  end.

Definition json_raise_for_status (resp : JsonResponse) : M unit :=
  if bool_decide (400 ≤ json_status_code resp < 600)
  then raise (HTTPError (json_status_code resp))
  else ret tt.

Definition json_resp_json (resp : JsonResponse) : M JsonBody :=
  match json_body resp with
  | Some data => ret data
  | None => raise JSONDecodeError
  end.

Definition getitem_json_creationTime (data : JsonBody) : M JValue :=
  match json_creationTime data with
  | Some v => ret v
  | None => raise (KeyError "creationTime")
  end.

(** [datetime.fromisoformat(v)]: a [TypeError] unless [v] is a [str]. *)
Definition value_fromisoformat (v : JValue) : M datetime :=
  match v with
  | JString t => datetime_fromisoformat fromisoformat t
  | JNotString _ => raise (TypeError "fromisoformat: argument must be str")
  end.

(** Lines 86-93 on a creationTime of any JSON type. *)
Definition parse_creation_time_json (data : JsonBody) : M unit :=
  if bool_decide (is_Some (json_creationTime data)) then
    try_except_ValueError
      (v ← getitem_json_creationTime data;
       dt ← value_fromisoformat v;
       set_reference "reference_time_modification"
                     (PTime (replace_tzinfo dt timezone_utc)))
      (v ← getitem_json_creationTime data;
       logging WARNING ("Could not parse creationTime: " +:+ format_value v))
  else ret tt.

(** Lines 77-183, from the outcome of [requests.get]. *)
Definition run_json (got : Res JsonResponse) : M unit :=
  logging INFO ("Fetching GCP IP ranges from " +:+ URL);;
  resp ← requests_get got;
  json_raise_for_status resp;;
  data ← json_resp_json resp;
  parse_creation_time_json data;;
  items ← for_each (default [] (json_prefixes data)) [] parse_body;
  logging INFO ("Processing " +:+ pretty (length items) +:+ " prefixes");;
  ' (prefixes, services, countries) ← collect_unique items;
  logging INFO ("Creating " +:+ pretty (size prefixes) +:+ " GeoPrefix nodes");;
  prefix_id ← iyp_batch_get_nodes_by_single_prop "GeoPrefix" "prefix" prefixes false;
  iyp_batch_add_node_label (dict_values prefix_id) "Prefix";;
  tag_id ← iyp_batch_get_nodes_by_single_prop "Tag" "label" services false;
  country_id ← iyp_batch_get_nodes_by_single_prop "Country" "country_code" countries false;
  ' (categorized_links, country_links) ←
      prepare_relationships prefix_id tag_id country_id items;
  logging INFO ("Creating " +:+ pretty (length categorized_links)
                +:+ " CATEGORIZED relationships");;
  iyp_batch_add_links "CATEGORIZED" categorized_links;;
  logging INFO ("Creating " +:+ pretty (length country_links)
                +:+ " COUNTRY relationships");;
  iyp_batch_add_links "COUNTRY" country_links;;
  logging INFO ("Finished processing GCP IP ranges: "
                +:+ pretty (length items) +:+ " prefixes").

End run_json.

(** ** Two implementations of the client *)

(** Modelled from the spec: the graph client behind [self.iyp] (the
    methods batch_get_nodes_by_single_prop, batch_add_node_label and
    batch_add_links of the iyp package) is not part of this crawler's
    file.  The spec describes it as a batch get-or-create of nodes by
    natural key followed by a batch upsert of edges, so the store maps
    (label, property, value) to a node id, a node id to its labels, and
    (edge type, source id, target id) to the edge's properties. *)
Record Graph : Type := mk_Graph {
  nodes : gmap (string * string * string) Z;
  node_labels : gmap Z (gset string);
  links : gmap (string * Z * Z) (list Reference)
}.

Definition empty_graph : Graph := mk_Graph ∅ ∅ ∅.

(** Modelled from the spec: adding a label to a node of the absent graph
    client; the labels a node already has are kept. *)
Definition add_label (label : string) (i : Z)
    (lbls : gmap Z (gset string)) : gmap Z (gset string) :=
  <[i := {[ label ]} ∪ default ∅ (lbls !! i)]> lbls.

(** Modelled from the spec: the absent client's get-or-create of one node
    by natural key; an existing node is returned as it is, a missing one
    is created under the next free id with its label. *)
Definition get_or_create (label prop key : string) (g : Graph) : Z * Graph :=
  match nodes g !! (label, prop, key) with
  | Some i => (i, g)
  | None =>
      let i := Z.of_nat (size (nodes g)) in
      (i, mk_Graph (<[(label, prop, key) := i]> (nodes g))
                   (add_label label i (node_labels g))
                   (links g))
  end.

(** Modelled from the spec: one key of the absent client's batch
    get-or-create; the reply gains the key's node id. *)
Definition get_step (label prop key : string)
    (acc : gmap string Z * Graph) : gmap string Z * Graph :=
  let '(i, g') := get_or_create label prop key acc.2 in
  (<[key := i]> acc.1, g').

(** Modelled from the spec: batch_get_nodes_by_single_prop of the absent
    client, a get-or-create of every submitted key; the reply maps each
    submitted key to its node id. *)
Definition graph_get_nodes (label prop : string) (keys : gset string)
    (all : bool) (g : Graph) : gmap string Z * Graph :=
  set_fold (get_step label prop) (∅, g) keys.

(** Modelled from the spec: batch_add_node_label of the absent client. *)
Definition graph_add_node_label (ids : list Z) (label : string)
    (g : Graph) : Graph :=
  mk_Graph (nodes g) (foldr (add_label label) (node_labels g) ids) (links g).

(** Modelled from the spec: the absent client's upsert of one edge, keyed
    by type, source and target; the properties given last are kept. *)
Definition upsert_link (kind : string)
    (es : gmap (string * Z * Z) (list Reference)) (l : Link)
  : gmap (string * Z * Z) (list Reference) :=
  <[(kind, src_id l, dst_id l) := props l]> es.

(** Modelled from the spec: batch_add_links of the absent client. *)
Definition graph_add_links (kind : string) (ls : list Link)
    (g : Graph) : Graph :=
  mk_Graph (nodes g) (node_labels g) (foldl (upsert_link kind) (links g) ls).

(** Modelled from the spec: the absent graph client as an implementation
    of the interface [run] calls. *)
#[export] Instance graph_iyp : IYP Graph := {
  batch_get_nodes_by_single_prop := graph_get_nodes;
  batch_add_node_label := graph_add_node_label;
  batch_add_links := graph_add_links
}.

(** Node [i] carries label [l]. *)
Definition has_label (g : Graph) (i : Z) (l : string) : Prop :=
  ∃ L, node_labels g !! i = Some L ∧ l ∈ L.

(** The key of an edge in the store. *)
Definition link_key (kind : string) (l : Link) : string * Z * Z :=
  (kind, src_id l, dst_id l).

(** A client double for tests: it keeps no store and answers every
    get-or-create for a label with the reply prepared for that label. *)
Definition canned_iyp (replies : string → gmap string Z) : IYP unit := {|
  batch_get_nodes_by_single_prop := λ label _ _ _ st, (replies label, st);
  batch_add_node_label := λ _ _ st, st;
  batch_add_links := λ _ _ st, st
|}.

(** A crawler object before its first call and log record. *)
Definition new_crawler {Store} (ref : Reference) (st : Store) : Crawler Store :=
  mk_Crawler ref st [] [].

(** A successful download of [data]. *)
Definition http_ok (data : Data) : Response :=
  {| status_code := 200; json := Some data |}.

(** A parser for the instances below: [datetime.fromisoformat] on the
    date-only layout YYYY-MM-DD (midnight, naive); every other string is
    rejected here. *)
Definition digit_of (a : ascii) : option Z :=
  let n := Z.of_N (N_of_ascii a) in
  if bool_decide (48 ≤ n ≤ 57) then Some (n - 48) else None.

Definition is_leap (y : Z) : bool :=
  bool_decide (y `mod` 4 = 0 ∧ (y `mod` 100 ≠ 0 ∨ y `mod` 400 = 0)).

Definition days_in_month (y m : Z) : Z :=
  if bool_decide (m = 2) then (if is_leap y then 29 else 28)
  else if bool_decide (m = 4 ∨ m = 6 ∨ m = 9 ∨ m = 11) then 30
  else 31.

Definition date_fromisoformat (t : string) : option datetime :=
  match t with
  | String y1 (String y2 (String y3 (String y4 (String "-"%char
      (String m1 (String m2 (String "-"%char (String d1 (String d2 EmptyString))))))))) =>
      y1 ← digit_of y1; y2 ← digit_of y2; y3 ← digit_of y3; y4 ← digit_of y4;
      m1 ← digit_of m1; m2 ← digit_of m2; d1 ← digit_of d1; d2 ← digit_of d2;
      let y := 1000 * y1 + 100 * y2 + 10 * y3 + y4 in
      let m := 10 * m1 + m2 in
      let d := 10 * d1 + d2 in
      if bool_decide (1 ≤ y ∧ 1 ≤ m ≤ 12 ∧ 1 ≤ d ≤ days_in_month y m)
      then Some (mk_datetime y m d 0 0 0 0 None)
      else None
  | _ => None
  end.

(** ** What each loop computes *)

(** The records one entry contributes. *)
Definition emitted (item : Entry) : list Item :=
  match item !! "ipv4Prefix" with
  | Some p => [ mk_Item p (dict_get item "service" "Google Cloud")
                        (dict_get item "scope" EmptyString) 4 ]
  | None => []
  end ++
  match item !! "ipv6Prefix" with
  | Some p => [ mk_Item p (dict_get item "service" "Google Cloud")
                        (dict_get item "scope" EmptyString) 6 ]
  | None => []
  end.

(** The country a record's scope resolves to. *)
Definition country_of_scope (r : Item) : option string :=
  REGION_TO_COUNTRY !! scope r.

(** The debug record one item contributes. *)
Definition unknown_scope_log (r : Item) : list (Level * string) :=
  match REGION_TO_COUNTRY !! scope r with
  | Some _ => []
  | None => if bool_decide (scope r ≠ EmptyString)
            then [ (DEBUG, "Unknown GCP region/scope: " +:+ scope r) ]
            else []
  end.

(** The links one item contributes. *)
Definition categorized_of (prefix_id tag_id : gmap string Z)
    (ref : Reference) (r : Item) : list Link :=
  match prefix_id !! prefix r, tag_id !! service r with
  | Some p, Some t => [ mk_Link p t [ref] ]
  | _, _ => []
  end.

Definition country_link_of (prefix_id country_id : gmap string Z)
    (ref : Reference) (r : Item) : list Link :=
  match prefix_id !! prefix r, REGION_TO_COUNTRY !! scope r with
  | Some p, Some cc =>
      match country_id !! cc with
      | Some c => [ mk_Link p c [ref] ]
      | None => []
      end
  | _, _ => []
  end.

(** The reference after the creationTime step. *)
Definition stamped (fromisoformat : string → option datetime)
    (data : Data) (ref : Reference) : Reference :=
  match creationTime data with
  | Some t =>
      match fromisoformat t with
      | Some dt => <["reference_time_modification" :=
                      PTime (replace_tzinfo dt timezone_utc)]> ref
      | None => ref
      end
  | None => ref
  end.

(** The log record of the creationTime step. *)
Definition stamp_log (fromisoformat : string → option datetime)
    (data : Data) : list (Level * string) :=
  match creationTime data with
  | Some t =>
      match fromisoformat t with
      | Some _ => []
      | None => [ (WARNING, "Could not parse creationTime: " +:+ t) ]
      end
  | None => []
  end.

Definition add_log {Store} (s : Crawler Store) (l : list (Level * string)) : Crawler Store :=
  mk_Crawler (reference s) (iyp s) (logged s ++ l) (calls s).

Definition items_of (data : Data) : list Item :=
  default [] (prefixes data) ≫= emitted.

Definition prefix_set (items : list Item) : gset string :=
  list_to_set (prefix <$> items).
Definition service_set (items : list Item) : gset string :=
  list_to_set (service <$> items).
Definition country_set (items : list Item) : gset string :=
  list_to_set (omap country_of_scope items).

(** The log records of one run, in order. *)
Definition run_log (fromisoformat : string → option datetime) (data : Data)
    (categorized_links country_links : list Link) : list (Level * string) :=
  let items := items_of data in
  [ (INFO, "Fetching GCP IP ranges from " +:+ URL) ]
  ++ stamp_log fromisoformat data
  ++ [ (INFO, "Processing " +:+ pretty (length items) +:+ " prefixes") ]
  ++ (items ≫= unknown_scope_log)
  ++ [ (INFO, "Creating " +:+ pretty (size (prefix_set items)) +:+ " GeoPrefix nodes");
       (INFO, "Creating " +:+ pretty (length categorized_links)
              +:+ " CATEGORIZED relationships");
       (INFO, "Creating " +:+ pretty (length country_links)
              +:+ " COUNTRY relationships");
       (INFO, "Finished processing GCP IP ranges: "
              +:+ pretty (length items) +:+ " prefixes") ].

(** The local variables of [run] once the method has finished. *)
Record Locals : Type := mk_Locals {
  v_items : list Item;
  v_prefixes : gset string;
  v_services : gset string;
  v_countries : gset string;
  v_prefix_id : gmap string Z;
  v_tag_id : gmap string Z;
  v_country_id : gmap string Z;
  v_categorized_links : list Link;
  v_country_links : list Link
}.

(** The client calls of one run, in order, with the replies received. *)
Definition calls_of (o : Locals) : list Call :=
  [ GetNodes "GeoPrefix" "prefix" (v_prefixes o) false (v_prefix_id o);
    AddNodeLabel (dict_values (v_prefix_id o)) "Prefix";
    GetNodes "Tag" "label" (v_services o) false (v_tag_id o);
    GetNodes "Country" "country_code" (v_countries o) false (v_country_id o);
    AddLinks "CATEGORIZED" (v_categorized_links o);
    AddLinks "COUNTRY" (v_country_links o) ].

(** [run] on a successful download of [data] takes the crawler from [s]
    to [s'] without raising; on the way it extracted [v_items o], made
    exactly the client calls [calls_of o], and the two link lists are
    what the relationship loop builds from the items and the replies. *)
Definition run_yields {Store} `{!IYP Store}
    (fromisoformat : string → option datetime) (data : Data)
    (s s' : Crawler Store) (o : Locals) : Prop :=
  run fromisoformat (http_ok data) s = Ok (tt, s')
  ∧ parse_prefixes data s = Ok (v_items o, s)
  ∧ prepare_relationships (v_prefix_id o) (v_tag_id o) (v_country_id o)
      (v_items o) s'
    = Ok ((v_categorized_links o, v_country_links o), s')
  ∧ calls s' = calls s ++ calls_of o.

(** What the steps of the method compute, in closed form. *)
Definition run_facts {Store} `{!IYP Store}
    (fromisoformat : string → option datetime) (data : Data)
    (s s' : Crawler Store) (o : Locals) : Prop :=
  v_items o = items_of data
  ∧ v_prefixes o = prefix_set (v_items o)
  ∧ v_services o = service_set (v_items o)
  ∧ v_countries o = country_set (v_items o)
  ∧ reference s' = stamped fromisoformat data (reference s)
  ∧ v_categorized_links o
    = v_items o ≫= categorized_of (v_prefix_id o) (v_tag_id o) (reference s')
  ∧ v_country_links o
    = v_items o ≫= country_link_of (v_prefix_id o) (v_country_id o) (reference s')
  ∧ logged s'
    = logged s ++ run_log fromisoformat data
                    (v_categorized_links o) (v_country_links o)
  ∧ ∃ st1 st3 st4,
      batch_get_nodes_by_single_prop "GeoPrefix" "prefix" (v_prefixes o)
        false (iyp s) = (v_prefix_id o, st1)
      ∧ batch_get_nodes_by_single_prop "Tag" "label" (v_services o) false
          (batch_add_node_label (dict_values (v_prefix_id o)) "Prefix" st1)
        = (v_tag_id o, st3)
      ∧ batch_get_nodes_by_single_prop "Country" "country_code"
          (v_countries o) false st3 = (v_country_id o, st4)
      ∧ iyp s' = batch_add_links "COUNTRY" (v_country_links o)
                   (batch_add_links "CATEGORIZED" (v_categorized_links o) st4).

(** ** Sample inputs *)

(** The entry of the end-to-end example. *)
Definition entry_8888 : Entry :=
  <["ipv4Prefix" := "8.8.8.0/24"]>
    (<["service" := "Google Cloud"]> (<["scope" := "us-central1"]> ∅)).

Definition item_8888 : Item :=
  mk_Item "8.8.8.0/24" "Google Cloud" "us-central1" 4.

(** [{"prefixes": [{"ipv4Prefix": "8.8.8.0/24", "service": "Google Cloud",
    "scope": "us-central1"}]}]. *)
Definition cloud_json : Data := mk_Data None (Some [entry_8888]).

(** An entry with both families and no service. *)
Definition dual_entry : Entry :=
  <["ipv4Prefix" := "34.80.0.0/15"]>
    (<["ipv6Prefix" := "2600:1900:4030::/44"]> (<["scope" := "asia-east1"]> ∅)).

(** An entry with an IPv6 prefix only, in a region the table lacks. *)
Definition v6_entry : Entry :=
  <["ipv6Prefix" := "2600:1901::/48"]> (<["scope" := "global"]> ∅).

(** An entry with an IPv4 prefix and nothing else. *)
Definition bare_entry : Entry := <["ipv4Prefix" := "35.190.0.0/17"]> ∅.

(** A reference as the base class leaves it for this crawler. *)
Definition sample_reference : Reference :=
  <["reference_url_info" :=
      PStr "https://cloud.google.com/compute/docs/faq#find_ip_range"]>
    (<["reference_org" := PStr ORG]>
       (<["reference_url_data" := PStr URL]>
          (<["reference_name" := PStr NAME]> ∅))).

(** The graph once the nodes of the end-to-end example exist. *)
Definition example_graph : Graph :=
  mk_Graph
    (<[("GeoPrefix", "prefix", "8.8.8.0/24") := 0]>
       (<[("Tag", "label", "Google Cloud") := 1]>
          (<[("Country", "country_code", "US") := 2]> ∅)))
    (<[0 := {[ "GeoPrefix"; "Prefix" ]}]>
       (<[1 := {[ "Tag" ]}]> (<[2 := {[ "Country" ]}]> ∅)))
    ∅.

(** Replies of a client that has registered the tag and the country but
    holds no GeoPrefix node under the submitted key. *)
Definition replies_without_prefix (label : string) : gmap string Z :=
  if bool_decide (label = "Tag") then {[ "Google Cloud" := 1 ]}
  else if bool_decide (label = "Country") then {[ "US" := 2 ]}
  else ∅.

(** A body with an unparseable creationTime and entries of every kind. *)
Definition mixed_json : Data :=
  mk_Data (Some "yesterday") (Some [entry_8888; dual_entry; v6_entry; bare_entry]).

(** ** Crawler.__init__ *)

(** Lines 71-75.  [base_init] stands for the constructor of the base
    class, which this file does not define; the crawler then records
    where its data is documented. *)
Definition Crawler_init {Store}
    (base_init : string → string → string → M Store unit)
    (organization url name : string) : M Store unit :=
  bind (base_init organization url name)
       (λ _, set_reference "reference_url_info"
               (PStr "https://cloud.google.com/compute/docs/faq#find_ip_range")).

(** A base constructor for the instances: it records its arguments. *)
Definition recording_base_init {Store}
    (organization url name : string) : M Store unit :=
  bind (set_reference "reference_org" (PStr organization))
       (λ _, bind (set_reference "reference_url_data" (PStr url))
                  (λ _, set_reference "reference_name" (PStr name))).

(** ** Further sample inputs *)

(** Two upper-case ASCII letters. *)
Definition is_upper (a : ascii) : bool :=
  bool_decide (65 ≤ Z.of_N (N_of_ascii a) ≤ 90).

Definition is_alpha2 (s : string) : bool :=
  match s with
  | String a (String b EmptyString) => is_upper a && is_upper b
  | _ => false
  end.

(** The country codes the table can yield. *)
Definition country_codes : gset string :=
  list_to_set (REGION_TO_COUNTRY_items.*2).

(** Replies of a client that has registered everything of the example. *)
Definition replies_complete (label : string) : gmap string Z :=
  if bool_decide (label = "Tag") then {[ "Google Cloud" := 1 ]}
  else if bool_decide (label = "Country") then {[ "US" := 2 ]}
  else {[ "8.8.8.0/24" := 0 ]}.

(** The example with a creationTime the sample parser accepts. *)
Definition dated_json : Data := mk_Data (Some "2024-02-29") (Some [entry_8888]).

(** A body whose creationTime is a number instead of a string. *)
Definition numeric_time_body : JsonBody :=
  {| json_creationTime := Some (JNotString "1718000000");
     json_prefixes := Some [entry_8888] |}.

(** A response that reports a missing page, with the example as body. *)
Definition not_found_json_response : JsonResponse :=
  {| json_status_code := 404; json_body := Some (json_of_data cloud_json) |}.

(** ** The method body, step by step *)

#[global] Opaque REGION_TO_COUNTRY.


Lemma contains_true {V} (d : gmap string V) k v :
  d !! k = Some v → contains d k = true.
Proof. intros E. unfold contains. rewrite E. apply bool_decide_eq_true. eauto. Qed.

Lemma contains_false {V} (d : gmap string V) k :
  d !! k = None → contains d k = false.
Proof.
  intros E. unfold contains. rewrite E. apply bool_decide_eq_false.
  intros [? ?]; discriminate.
Qed.

Lemma for_each_app {Store A V} (xs ys : list A) (vars : V)
    (body : A → V → M Store V) s :
  for_each (xs ++ ys) vars body s
  = bind (for_each xs vars body) (λ vars', for_each ys vars' body) s.
Proof.
  revert vars s. induction xs as [|x xs IH]; intros vars s; simpl.
  - reflexivity.
  - unfold bind. destruct (body x vars s) as [[v s']|e]; [|reflexivity].
    rewrite IH. reflexivity.
Qed.

(** Closed equations are settled by evaluation. *)
Ltac compute_eq := vm_compute; exact eq_refl.

(** Case analysis on a dictionary test followed by the guarded read. *)
Ltac dict_case d k :=
  let E := fresh "E" in
  destruct (d !! k) eqn:E;
  [ rewrite ?(contains_true _ _ _ E) | rewrite ?(contains_false _ _ E) ];
  unfold getitem; rewrite ?E; cbn [bind ret negb].

Section steps.
Context {Store : Type} `{!IYP Store}.
Variable fromisoformat : string → option datetime.

Lemma parse_body_spec item items (s : Crawler Store) :
  parse_body item items s = Ok (items ++ emitted item, s).
Proof.
  unfold parse_body, emitted, bind.
  dict_case item "ipv4Prefix"; dict_case item "ipv6Prefix";
    rewrite <- ?app_assoc, ?app_nil_r; reflexivity.
Qed.

Lemma parse_loop_spec es items (s : Crawler Store) :
  for_each es items parse_body s = Ok (items ++ (es ≫= emitted), s).
Proof.
  revert items. induction es as [|e es IH]; intros items; cbn [for_each].
  - simpl. by rewrite app_nil_r.
  - unfold bind. rewrite parse_body_spec, IH, <- app_assoc. reflexivity.
Qed.

Lemma parse_prefixes_spec data (s : Crawler Store) :
  parse_prefixes data s = Ok (default [] (prefixes data) ≫= emitted, s).
Proof. unfold parse_prefixes. by rewrite parse_loop_spec. Qed.


Lemma add_log_nil (s : Crawler Store) : add_log s [] = s.
Proof. destruct s. unfold add_log; simpl. by rewrite app_nil_r. Qed.

Lemma add_log_app (s : Crawler Store) l1 l2 :
  add_log (add_log s l1) l2 = add_log s (l1 ++ l2).
Proof. unfold add_log; simpl. by rewrite app_assoc. Qed.

Lemma collect_body_spec r P S C (s : Crawler Store) :
  collect_body r (P, S, C) s
  = Ok ((P ∪ {[ prefix r ]}, S ∪ {[ service r ]},
         C ∪ list_to_set (option_list (country_of_scope r))),
        add_log s (unknown_scope_log r)).
Proof.
  unfold collect_body, unknown_scope_log, country_of_scope.
  dict_case REGION_TO_COUNTRY (scope r); clear E; simpl.
  - rewrite add_log_nil, union_empty_r_L. reflexivity.
  - rewrite union_empty_r_L.
    case_bool_decide; unfold bind, ret, logging; simpl.
    + reflexivity.
    + by rewrite add_log_nil.
Qed.

Lemma collect_loop_spec items P S C (s : Crawler Store) :
  for_each items (P, S, C) collect_body s
  = Ok ((P ∪ prefix_set items, S ∪ service_set items, C ∪ country_set items),
        add_log s (items ≫= unknown_scope_log)).
Proof.
  revert P S C s. induction items as [|r items IH]; intros P S C s.
  - simpl. rewrite add_log_nil. unfold ret, prefix_set, service_set, country_set; simpl.
    by rewrite !union_empty_r_L.
  - cbn [for_each]. unfold bind. rewrite collect_body_spec, IH, add_log_app.
    unfold prefix_set, service_set, country_set.
    rewrite !fmap_cons, !list_to_set_cons, !(assoc_L (∪)).
    do 3 f_equal. cbn [omap list_omap].
    destruct (country_of_scope r); simpl.
    + by rewrite union_empty_r_L, (assoc_L (∪)).
    + by rewrite union_empty_r_L.
Qed.

Lemma collect_unique_spec items (s : Crawler Store) :
  collect_unique items s
  = Ok ((prefix_set items, service_set items, country_set items),
        add_log s (items ≫= unknown_scope_log)).
Proof.
  unfold collect_unique. rewrite collect_loop_spec.
  by rewrite !union_empty_l_L.
Qed.

Lemma link_body_spec prefix_id tag_id country_id r cat ctry (s : Crawler Store) :
  link_body prefix_id tag_id country_id r (cat, ctry) s
  = Ok ((cat ++ categorized_of prefix_id tag_id (reference s) r,
         ctry ++ country_link_of prefix_id country_id (reference s) r), s).
Proof.
  unfold link_body, categorized_of, country_link_of.
  dict_case prefix_id (prefix r); [|by rewrite !app_nil_r].
  unfold bind.
  dict_case tag_id (service r); dict_case REGION_TO_COUNTRY (scope r);
    rewrite ?app_nil_r; try reflexivity;
    unfold bind; match goal with |- context [country_id !! ?cc] => dict_case country_id cc end;
    rewrite ?app_nil_r; reflexivity.
Qed.

Lemma link_loop_spec prefix_id tag_id country_id items cat ctry (s : Crawler Store) :
  for_each items (cat, ctry) (link_body prefix_id tag_id country_id) s
  = Ok ((cat ++ (items ≫= categorized_of prefix_id tag_id (reference s)),
         ctry ++ (items ≫= country_link_of prefix_id country_id (reference s))), s).
Proof.
  revert cat ctry. induction items as [|r items IH]; intros cat ctry; cbn [for_each].
  - simpl. by rewrite !app_nil_r.
  - unfold bind. rewrite link_body_spec, IH, <- !app_assoc. reflexivity.
Qed.

Lemma prepare_relationships_spec prefix_id tag_id country_id items (s : Crawler Store) :
  prepare_relationships prefix_id tag_id country_id items s
  = Ok ((items ≫= categorized_of prefix_id tag_id (reference s),
         items ≫= country_link_of prefix_id country_id (reference s)), s).
Proof. unfold prepare_relationships. by rewrite link_loop_spec. Qed.

Lemma parse_creation_time_spec data (s : Crawler Store) :
  parse_creation_time fromisoformat data s
  = Ok (tt, mk_Crawler (stamped fromisoformat data (reference s)) (iyp s)
              (logged s ++ stamp_log fromisoformat data) (calls s)).
Proof.
  unfold parse_creation_time, stamped, stamp_log, try_except_ValueError,
    getitem_creationTime, datetime_fromisoformat, bind.
  destruct (creationTime data) as [t|] eqn:E.
  - rewrite bool_decide_eq_true_2 by eauto.
    unfold ret, set_reference, logging.
    destruct (fromisoformat t); simpl; by rewrite ?app_nil_r.
  - rewrite bool_decide_eq_false_2 by (intros [? ?]; discriminate).
    unfold ret. destruct s; simpl. by rewrite app_nil_r.
Qed.

(** The whole method on a successful download. *)
Lemma run_spec data (s : Crawler Store) :
  ∃ s' o, run_yields fromisoformat data s s' o
          ∧ run_facts fromisoformat data s s' o.
Proof.
  set (items := items_of data).
  set (ref := stamped fromisoformat data (reference s)).
  destruct (batch_get_nodes_by_single_prop "GeoPrefix" "prefix"
              (prefix_set items) false (iyp s)) as [prefix_id st1] eqn:E1.
  destruct (batch_get_nodes_by_single_prop "Tag" "label"
              (service_set items) false
              (batch_add_node_label (dict_values prefix_id) "Prefix" st1))
    as [tag_id st3] eqn:E2.
  destruct (batch_get_nodes_by_single_prop "Country" "country_code"
              (country_set items) false st3) as [country_id st4] eqn:E3.
  set (cat := items ≫= categorized_of prefix_id tag_id ref).
  set (ctry := items ≫= country_link_of prefix_id country_id ref).
  set (o := mk_Locals items (prefix_set items) (service_set items)
              (country_set items) prefix_id tag_id country_id cat ctry).
  exists (mk_Crawler ref
            (batch_add_links "COUNTRY" ctry (batch_add_links "CATEGORIZED" cat st4))
            (logged s ++ run_log fromisoformat data cat ctry)
            (calls s ++ calls_of o)), o.
  split; [split; [|split; [|split]]|].
  - unfold run, bind at 1. cbn [logging].
    unfold bind at 1. unfold raise_for_status, http_ok at 1. cbn [status_code].
    rewrite bool_decide_eq_false_2 by lia. cbn [ret].
    unfold bind at 1. cbn [resp_json http_ok json ret].
    unfold bind at 1. rewrite parse_creation_time_spec.
    unfold bind at 1. rewrite parse_prefixes_spec. fold (items_of data). fold items.
    unfold bind at 1. cbn [logging reference iyp logged calls].
    unfold bind at 1. rewrite collect_unique_spec.
    unfold bind at 1. cbn [logging add_log reference iyp logged calls].
    unfold bind at 1. unfold iyp_batch_get_nodes_by_single_prop at 1.
    cbn [reference iyp logged calls]. rewrite E1.
    unfold bind at 1. cbn [iyp_batch_add_node_label reference iyp logged calls].
    unfold bind at 1. unfold iyp_batch_get_nodes_by_single_prop at 1.
    cbn [reference iyp logged calls]. rewrite E2.
    unfold bind at 1. unfold iyp_batch_get_nodes_by_single_prop at 1.
    cbn [reference iyp logged calls]. rewrite E3.
    unfold bind at 1. rewrite prepare_relationships_spec.
    cbn [reference iyp logged calls].
    unfold bind, logging, iyp_batch_add_links. cbn [reference iyp logged calls].
    unfold run_log, calls_of. fold items. fold ref. fold cat. fold ctry.
    subst o. cbn [v_prefixes v_prefix_id v_services v_tag_id v_countries
                  v_country_id v_categorized_links v_country_links].
    rewrite <- !app_assoc. reflexivity.
  - rewrite parse_prefixes_spec. reflexivity.
  - rewrite prepare_relationships_spec. reflexivity.
  - reflexivity.
  - unfold run_facts. cbn [reference logged iyp].
    repeat (split; [reflexivity|]).
    exists st1, st3, st4. subst o. cbn. done.
Qed.

(** The outcome of a run is determined by the input. *)
Lemma run_yields_inj data (s s1 s2 : Crawler Store) o1 o2 :
  run_yields fromisoformat data s s1 o1 →
  run_yields fromisoformat data s s2 o2 →
  s1 = s2 ∧ o1 = o2.
Proof.
  intros (R1 & P1 & _ & C1) (R2 & P2 & _ & C2).
  rewrite R1 in R2. injection R2 as ->.
  rewrite P1 in P2. injection P2 as Hitems.
  rewrite C1 in C2. apply app_inv_head in C2.
  split; [reflexivity|].
  destruct o1, o2. unfold calls_of in C2. simpl in *.
  by simplify_eq.
Qed.

Lemma run_yields_facts data (s s' : Crawler Store) o :
  run_yields fromisoformat data s s' o →
  run_facts fromisoformat data s s' o.
Proof.
  intros Hy. destruct (run_spec data s) as (s0 & o0 & Hy0 & Hf).
  destruct (run_yields_inj _ _ _ _ _ _ Hy Hy0) as [-> ->]. exact Hf.
Qed.

End steps.

(** ** Extraction *)

Section extraction.
Context {Store : Type}.
Implicit Types (s : Crawler Store) (item : Entry).

Lemma parse_prefixes_insert ct (pre post : list Entry) item s :
  parse_prefixes (mk_Data ct (Some (pre ++ item :: post))) s
  = Ok ((pre ≫= emitted) ++ emitted item ++ (post ≫= emitted), s).
Proof.
  rewrite parse_prefixes_spec.
  change (default [] (prefixes _)) with (pre ++ item :: post).
  by rewrite bind_app, bind_cons.
Qed.

Lemma parse_body_alone item s :
  parse_body item [] s = Ok (emitted item, s).
Proof. by rewrite parse_body_spec. Qed.

(** C3: an entry with both an ipv4Prefix and an ipv6Prefix key yields
    exactly two records, the first of family 4 carrying the ipv4Prefix
    value and the second of family 6 carrying the ipv6Prefix value; an
    entry with only one of the two keys yields exactly one record, of
    that family.  Stated for the loop body run on the entry alone and for
    the slice the entry contributes to the extraction of any list of
    entries around it. *)
Theorem extraction_by_family ct (pre post : list Entry) item s :
  ∃ before after,
    parse_prefixes (mk_Data ct (Some pre)) s = Ok (before, s)
    ∧ parse_prefixes (mk_Data ct (Some post)) s = Ok (after, s)
    ∧ (∀ p4 p6,
         item !! "ipv4Prefix" = Some p4 → item !! "ipv6Prefix" = Some p6 →
         let r4 := mk_Item p4 (dict_get item "service" "Google Cloud")
                           (dict_get item "scope" EmptyString) 4 in
         let r6 := mk_Item p6 (dict_get item "service" "Google Cloud")
                           (dict_get item "scope" EmptyString) 6 in
         parse_body item [] s = Ok ([r4; r6], s)
         ∧ parse_prefixes (mk_Data ct (Some (pre ++ item :: post))) s
           = Ok (before ++ [r4; r6] ++ after, s))
    ∧ (∀ p4,
         item !! "ipv4Prefix" = Some p4 → item !! "ipv6Prefix" = None →
         let r4 := mk_Item p4 (dict_get item "service" "Google Cloud")
                           (dict_get item "scope" EmptyString) 4 in
         parse_body item [] s = Ok ([r4], s)
         ∧ parse_prefixes (mk_Data ct (Some (pre ++ item :: post))) s
           = Ok (before ++ [r4] ++ after, s))
    ∧ (∀ p6,
         item !! "ipv4Prefix" = None → item !! "ipv6Prefix" = Some p6 →
         let r6 := mk_Item p6 (dict_get item "service" "Google Cloud")
                           (dict_get item "scope" EmptyString) 6 in
         parse_body item [] s = Ok ([r6], s)
         ∧ parse_prefixes (mk_Data ct (Some (pre ++ item :: post))) s
           = Ok (before ++ [r6] ++ after, s)).
Proof.
  exists (pre ≫= emitted), (post ≫= emitted).
  split; [by rewrite parse_prefixes_spec|].
  split; [by rewrite parse_prefixes_spec|].
  rewrite parse_prefixes_insert, parse_body_alone. unfold emitted.
  repeat split; intros; simplify_map_eq; reflexivity.
Qed.

(** C7: when the service key is absent, every record emitted for the
    entry has service name Google Cloud; when the scope key is absent,
    every record emitted for the entry has the empty string as scope.
    [new] is what the loop body appends for the entry, alone or inside
    any list of entries. *)
Theorem extraction_defaults ct (pre post : list Entry) item s :
  ∃ before new after,
    parse_prefixes (mk_Data ct (Some pre)) s = Ok (before, s)
    ∧ parse_prefixes (mk_Data ct (Some post)) s = Ok (after, s)
    ∧ parse_body item [] s = Ok (new, s)
    ∧ parse_prefixes (mk_Data ct (Some (pre ++ item :: post))) s
      = Ok (before ++ new ++ after, s)
    ∧ (item !! "service" = None → ∀ r, r ∈ new → service r = "Google Cloud")
    ∧ (item !! "scope" = None → ∀ r, r ∈ new → scope r = EmptyString).
Proof.
  exists (pre ≫= emitted), (emitted item), (post ≫= emitted).
  split; [by rewrite parse_prefixes_spec|].
  split; [by rewrite parse_prefixes_spec|].
  split; [apply parse_body_alone|].
  split; [apply parse_prefixes_insert|].
  unfold emitted, dict_get.
  split; intros E r Hr; rewrite E in Hr; simpl in Hr;
    destruct (item !! "ipv4Prefix"), (item !! "ipv6Prefix"); simpl in Hr;
    repeat (apply elem_of_cons in Hr as [->|Hr]; [reflexivity|]);
    by apply elem_of_nil in Hr.
Qed.

End extraction.

(** The entry with both families yields its two records. *)
Lemma extraction_by_family_witness :
  parse_body (Store := unit) dual_entry [] (new_crawler sample_reference tt)
  = Ok ([ mk_Item "34.80.0.0/15" "Google Cloud" "asia-east1" 4;
          mk_Item "2600:1900:4030::/44" "Google Cloud" "asia-east1" 6 ],
        new_crawler sample_reference tt).
Proof.
  destruct (extraction_by_family (Store := unit) None [entry_8888] [v6_entry]
              dual_entry (new_crawler sample_reference tt))
    as (before & after & _ & _ & Hboth & _).
  apply (Hboth "34.80.0.0/15" "2600:1900:4030::/44"); vm_compute; reflexivity.
Defined.

(** The entry without service and scope keys yields defaulted records. *)
Lemma extraction_defaults_witness :
  ∃ new, parse_body (Store := unit) bare_entry [] (new_crawler sample_reference tt)
         = Ok (new, new_crawler sample_reference tt)
         ∧ (∀ r, r ∈ new → service r = "Google Cloud")
         ∧ (∀ r, r ∈ new → scope r = EmptyString).
Proof.
  destruct (extraction_defaults (Store := unit) None [entry_8888] [v6_entry]
              bare_entry (new_crawler sample_reference tt))
    as (before & new & after & _ & _ & Hnew & _ & Hsvc & Hscope).
  exists new. split; [exact Hnew|].
  split; [apply Hsvc|apply Hscope]; vm_compute; reflexivity.
Defined.

(** ** Links *)

Lemma elem_of_categorized_of prefix_id tag_id ref r l :
  l ∈ categorized_of prefix_id tag_id ref r
  ↔ ∃ p t, prefix_id !! prefix r = Some p ∧ tag_id !! service r = Some t
           ∧ l = mk_Link p t [ref].
Proof.
  unfold categorized_of.
  destruct (prefix_id !! prefix r) as [p|], (tag_id !! service r) as [t|];
    rewrite ?list_elem_of_singleton, ?elem_of_nil; naive_solver.
Qed.

Lemma elem_of_country_link_of prefix_id country_id ref r l :
  l ∈ country_link_of prefix_id country_id ref r
  ↔ ∃ p cc c, prefix_id !! prefix r = Some p
              ∧ REGION_TO_COUNTRY !! scope r = Some cc
              ∧ country_id !! cc = Some c
              ∧ l = mk_Link p c [ref].
Proof.
  unfold country_link_of.
  destruct (prefix_id !! prefix r) as [p|];
    [destruct (REGION_TO_COUNTRY !! scope r) as [cc|];
     [destruct (country_id !! cc) as [c|] eqn:E|]|];
    rewrite ?list_elem_of_singleton, ?elem_of_nil; naive_solver.
Qed.

Lemma categorized_of_length prefix_id tag_id ref items :
  length (items ≫= categorized_of prefix_id tag_id ref)
  = length (filter (λ r, prefix r ∈ dom prefix_id ∧ service r ∈ dom tag_id) items).
Proof.
  induction items as [|r items IH]; [reflexivity|].
  rewrite bind_cons, length_app, IH, filter_cons.
  unfold categorized_of.
  destruct (prefix_id !! prefix r) as [p|] eqn:Ep,
           (tag_id !! service r) as [t|] eqn:Et;
    case_decide as Hd; simpl; try reflexivity;
    exfalso; rewrite !elem_of_dom, ?Ep, ?Et in Hd;
    first [ apply Hd; eauto | destruct Hd as [[? ?] [? ?]]; congruence ].
Qed.

Lemma categorized_of_registered prefix_id tag_id ref items :
  filter (λ r, prefix r ∈ dom prefix_id) items ≫= categorized_of prefix_id tag_id ref
  = items ≫= categorized_of prefix_id tag_id ref.
Proof.
  induction items as [|r items IH]; [reflexivity|].
  rewrite filter_cons, bind_cons, <- IH.
  case_decide as Hd; [by rewrite bind_cons|].
  rewrite elem_of_dom in Hd. unfold categorized_of.
  destruct (prefix_id !! prefix r); [exfalso; eauto|reflexivity].
Qed.

Lemma country_link_of_registered prefix_id country_id ref items :
  filter (λ r, prefix r ∈ dom prefix_id) items ≫= country_link_of prefix_id country_id ref
  = items ≫= country_link_of prefix_id country_id ref.
Proof.
  induction items as [|r items IH]; [reflexivity|].
  rewrite filter_cons, bind_cons, <- IH.
  case_decide as Hd; [by rewrite bind_cons|].
  rewrite elem_of_dom in Hd. unfold country_link_of.
  destruct (prefix_id !! prefix r); [exfalso; eauto|reflexivity].
Qed.

Lemma country_link_of_known prefix_id country_id ref items :
  filter (λ r, is_Some (REGION_TO_COUNTRY !! scope r)) items
    ≫= country_link_of prefix_id country_id ref
  = items ≫= country_link_of prefix_id country_id ref.
Proof.
  induction items as [|r items IH]; [reflexivity|].
  rewrite filter_cons, bind_cons, <- IH.
  case_decide as Hd; [by rewrite bind_cons|].
  unfold country_link_of.
  destruct (prefix_id !! prefix r); [|reflexivity].
  destruct (REGION_TO_COUNTRY !! scope r); [exfalso; eauto|reflexivity].
Qed.

Lemma bind_length_le {A B} (f : A → list B) (l : list A) :
  (∀ x, length (f x) ≤ 1)%nat → (length (l ≫= f) ≤ length l)%nat.
Proof.
  intros Hf. induction l as [|x l IH]; [reflexivity|].
  rewrite bind_cons, length_app. specialize (Hf x). simpl. lia.
Qed.

Lemma elem_of_unknown_scope_log r rec :
  rec ∈ unknown_scope_log r
  ↔ REGION_TO_COUNTRY !! scope r = None ∧ scope r ≠ EmptyString
    ∧ rec = (DEBUG, "Unknown GCP region/scope: " +:+ scope r).
Proof.
  unfold unknown_scope_log.
  destruct (REGION_TO_COUNTRY !! scope r); [rewrite elem_of_nil; naive_solver|].
  case_bool_decide; rewrite ?list_elem_of_singleton, ?elem_of_nil; naive_solver.
Qed.

Lemma elem_of_country_set items cc :
  cc ∈ country_set items
  ↔ ∃ r, r ∈ items ∧ REGION_TO_COUNTRY !! scope r = Some cc.
Proof.
  unfold country_set. rewrite elem_of_list_to_set, list_elem_of_omap.
  unfold country_of_scope. naive_solver.
Qed.

Lemma elem_of_prefix_set items x :
  x ∈ prefix_set items ↔ ∃ r, r ∈ items ∧ prefix r = x.
Proof.
  unfold prefix_set. rewrite elem_of_list_to_set, list_elem_of_fmap. naive_solver.
Qed.

Lemma elem_of_service_set items x :
  x ∈ service_set items ↔ ∃ r, r ∈ items ∧ service r = x.
Proof.
  unfold service_set. rewrite elem_of_list_to_set, list_elem_of_fmap. naive_solver.
Qed.

(** ** The run on any decoded body *)

Lemma bind_cong {Store A B} (m1 m2 : M Store A) (k1 k2 : A → M Store B) s :
  m1 s = m2 s →
  (∀ a s', k1 a s' = k2 a s') →
  bind m1 k1 s = bind m2 k2 s.
Proof.
  intros Hm Hk. unfold bind. rewrite Hm.
  destruct (m2 s) as [[a s']|e]; [apply Hk|reflexivity].
Qed.

Section json_steps.
Context {Store : Type} `{!IYP Store}.
Variable fromisoformat : string → option datetime.
Implicit Types (s : Crawler Store) (o : Locals) (data : Data).

(** On a creationTime that is absent or a string, the step is the one of
    the documented shape. *)
Lemma parse_creation_time_json_typed data s :
  parse_creation_time_json fromisoformat (json_of_data data) s
  = parse_creation_time fromisoformat data s.
Proof.
  unfold parse_creation_time_json, parse_creation_time, json_of_data,
    getitem_json_creationTime, getitem_creationTime. cbn [json_creationTime].
  destruct (creationTime data) as [t|]; cbn [fmap option_fmap option_map].
  - rewrite !bool_decide_eq_true_2 by eauto.
    unfold try_except_ValueError, bind, ret. cbn [value_fromisoformat format_value].
    reflexivity.
  - rewrite !bool_decide_eq_false_2 by (intros [? ?]; discriminate). reflexivity.
Qed.

(** On a creationTime that is not a string, the step raises: the parser's
    TypeError is not a ValueError, so the handler does not apply. *)
Lemma parse_creation_time_json_not_string (body : JsonBody) text s :
  json_creationTime body = Some (JNotString text) →
  parse_creation_time_json fromisoformat body s
  = Raise (TypeError "fromisoformat: argument must be str").
Proof.
  intros Hv. unfold parse_creation_time_json, getitem_json_creationTime.
  rewrite Hv, bool_decide_eq_true_2 by eauto. reflexivity.
Qed.

(** On a successful download of a body of the documented shape,
    [run_json] is [run]. *)
Lemma run_json_typed_ok data s :
  run_json fromisoformat (Ok (json_ok (json_of_data data))) s
  = run fromisoformat (http_ok data) s.
Proof.
  unfold run_json, run.
  apply bind_cong; [reflexivity|]. intros [] s1.
  unfold bind at 1. cbn [requests_get ret].
  apply bind_cong; [reflexivity|]. intros [] s2.
  unfold bind at 1. cbn [json_resp_json json_ok json_body ret].
  symmetry. unfold bind at 1. cbn [resp_json http_ok json ret]. symmetry.
  apply bind_cong; [apply parse_creation_time_json_typed|].
  intros [] s3. reflexivity.
Qed.

(** What remains of [run_json] once a response has arrived. *)
Lemma run_json_response (resp : JsonResponse) s :
  run_json fromisoformat (Ok resp) s
  = if bool_decide (400 ≤ json_status_code resp < 600)
    then Raise (HTTPError (json_status_code resp))
    else match json_body resp with
         | Some body => run_json fromisoformat (Ok (json_ok body)) s
         | None => Raise JSONDecodeError
         end.
Proof.
  destruct resp as [st b]. cbn [json_status_code json_body].
  case_bool_decide as Hst.
  - unfold run_json, bind at 1. cbn [logging].
    unfold bind at 1. cbn [requests_get ret].
    unfold bind at 1. unfold json_raise_for_status at 1. cbn [json_status_code].
    by rewrite bool_decide_eq_true_2.
  - destruct b as [body|].
    + unfold run_json.
      apply bind_cong; [reflexivity|]. intros [] s1.
      unfold bind at 1. cbn [requests_get ret].
      unfold bind at 1. unfold json_raise_for_status at 1. cbn [json_status_code].
      rewrite bool_decide_eq_false_2 by assumption. cbn [ret].
      symmetry.
      unfold bind at 1. cbn [requests_get ret].
      unfold bind at 1. unfold json_raise_for_status, json_ok at 1.
      cbn [json_status_code].
      rewrite bool_decide_eq_false_2 by lia. cbn [ret].
      apply bind_cong; [reflexivity|]. intros data s2. reflexivity.
    + unfold run_json, bind at 1. cbn [logging].
      unfold bind at 1. cbn [requests_get ret].
      unfold bind at 1. unfold json_raise_for_status at 1. cbn [json_status_code].
      rewrite bool_decide_eq_false_2 by assumption. cbn [ret].
      unfold bind at 1. reflexivity.
Qed.

Lemma run_json_not_string (body : JsonBody) text s :
  json_creationTime body = Some (JNotString text) →
  run_json fromisoformat (Ok (json_ok body)) s
  = Raise (TypeError "fromisoformat: argument must be str").
Proof.
  intros Hv. unfold run_json, bind at 1. cbn [logging].
  unfold bind at 1. cbn [requests_get ret].
  unfold bind at 1. unfold json_raise_for_status, json_ok at 1.
  cbn [json_status_code].
  rewrite bool_decide_eq_false_2 by lia. cbn [ret].
  unfold bind at 1. cbn [json_resp_json json_ok json_body ret].
  unfold bind at 1.
  by rewrite (parse_creation_time_json_not_string body text _ Hv).
Qed.

Lemma run_json_string (body : JsonBody) s :
  (json_creationTime body = None
   ∨ ∃ t, json_creationTime body = Some (JString t)) →
  ∃ data, body = json_of_data data
          ∧ prefixes data = json_prefixes body
          ∧ run_json fromisoformat (Ok (json_ok body)) s
            = run fromisoformat (http_ok data) s.
Proof.
  intros Hv. destruct body as [v ps]. cbn [json_creationTime json_prefixes] in *.
  destruct Hv as [->|[t ->]].
  - exists (mk_Data None ps). split; [reflexivity|]. split; [reflexivity|].
    apply (run_json_typed_ok (mk_Data None ps)).
  - exists (mk_Data (Some t) ps). split; [reflexivity|]. split; [reflexivity|].
    apply (run_json_typed_ok (mk_Data (Some t) ps)).
Qed.

(** The two checks that precede the processing of the body. *)
Lemma run_response (resp : Response) s :
  run fromisoformat resp s
  = if bool_decide (400 ≤ status_code resp < 600)
    then Raise (HTTPError (status_code resp))
    else match json resp with
         | Some data => run fromisoformat (http_ok data) s
         | None => Raise JSONDecodeError
         end.
Proof.
  unfold run at 1. unfold bind at 1. cbn [logging].
  unfold bind at 1. unfold raise_for_status at 1.
  case_bool_decide as Hst; [reflexivity|]. cbn [ret].
  unfold bind at 1. unfold resp_json at 1.
  destruct (json resp) as [data|]; [|reflexivity].
  unfold run, bind at 1. cbn [logging].
  unfold bind at 1. unfold raise_for_status, http_ok at 1. cbn [status_code].
  rewrite bool_decide_eq_false_2 by lia. cbn [ret].
  unfold bind at 1. cbn [resp_json http_ok json ret]. reflexivity.
Qed.

(** On a response whose body has the documented shape, [run_json] is
    [run]. *)
Lemma run_json_typed (resp : Response) s :
  run_json fromisoformat (Ok (json_of_response resp)) s
  = run fromisoformat resp s.
Proof.
  rewrite run_json_response, run_response. unfold json_of_response.
  cbn [json_status_code json_body].
  case_bool_decide; [reflexivity|].
  destruct (json resp) as [data|]; cbn [fmap option_fmap option_map];
    [|reflexivity].
  apply run_json_typed_ok.
Qed.

(** An exception of [requests.get] leaves the method as it is. *)
Lemma run_json_no_response e s : run_json fromisoformat (Raise e) s = Raise e.
Proof. reflexivity. Qed.

End json_steps.

(** ** The run against any client *)

Section claims.
Context {Store : Type} `{!IYP Store}.
Variable fromisoformat : string → option datetime.
Implicit Types (s : Crawler Store) (o : Locals) (data : Data).

Lemma run_total data s : ∃ s' o, run_yields fromisoformat data s s' o.
Proof. destruct (run_spec fromisoformat data s) as (s' & o & Hy & _). eauto. Qed.

(** C1, amended: the number of CATEGORIZED links handed to the client
    is at most the number of extracted records, and equals the number of
    extracted records whose prefix is a key of the prefix_id reply and
    whose service is a key of the tag_id reply. *)
Theorem categorized_count data s :
  ∃ s' o,
    run_yields fromisoformat data s s' o
    ∧ (length (v_categorized_links o) ≤ length (v_items o))%nat
    ∧ length (v_categorized_links o)
      = length (filter (λ r, prefix r ∈ dom (v_prefix_id o)
                             ∧ service r ∈ dom (v_tag_id o)) (v_items o)).
Proof.
  destruct (run_spec fromisoformat data s) as (s' & o & Hy & Hf).
  exists s', o. split; [exact Hy|].
  destruct Hf as (_ & _ & _ & _ & _ & -> & _).
  split; [|apply categorized_of_length].
  apply bind_length_le. intros r. unfold categorized_of.
  destruct (v_prefix_id o !! prefix r), (v_tag_id o !! service r); simpl; lia.
Qed.

(** C2: a record whose prefix is not a key of the prefix_id reply adds
    no CATEGORIZED and no COUNTRY link, and the run does not raise.  The
    loop body returns both lists as they were; the links built from all
    records are those built from the registered ones alone; and every
    link handed to the client starts at the id of a registered prefix. *)
Theorem unregistered_prefix_skipped data s :
  (∃ s' o, run_yields fromisoformat data s s' o)
  ∧ ∀ s' o, run_yields fromisoformat data s s' o →
      (∀ r, r ∈ v_items o → prefix r ∉ dom (v_prefix_id o) →
         ∀ links s0,
           link_body (v_prefix_id o) (v_tag_id o) (v_country_id o) r links s0
           = Ok (links, s0))
      ∧ prepare_relationships (v_prefix_id o) (v_tag_id o) (v_country_id o)
          (filter (λ r, prefix r ∈ dom (v_prefix_id o)) (v_items o)) s'
        = Ok ((v_categorized_links o, v_country_links o), s')
      ∧ ∀ l, l ∈ v_categorized_links o ++ v_country_links o →
          ∃ r, r ∈ v_items o ∧ v_prefix_id o !! prefix r = Some (src_id l).
Proof.
  split; [apply run_total|]. intros s' o Hy.
  pose proof (run_yields_facts _ _ _ _ _ Hy) as (_ & _ & _ & _ & _ & Hcat & Hctry & _).
  split; [|split].
  - intros r _ Hr [cat ctry] s0. rewrite link_body_spec.
    rewrite not_elem_of_dom in Hr.
    unfold categorized_of, country_link_of. rewrite Hr.
    by rewrite !app_nil_r.
  - rewrite prepare_relationships_spec, categorized_of_registered,
      country_link_of_registered, <- Hcat, <- Hctry. reflexivity.
  - intros l. rewrite Hcat, Hctry, elem_of_app, !list_elem_of_bind.
    intros [(r & Hl & Hr)|(r & Hl & Hr)]; exists r; split; try done.
    + apply elem_of_categorized_of in Hl as (p & t & Hp & _ & ->). done.
    + apply elem_of_country_link_of in Hl as (p & cc & c & Hp & _ & _ & ->). done.
Qed.

(** C4: a record whose scope is a key of REGION_TO_COUNTRY resolves to
    the table's value for that key: that value is in the set of country
    codes submitted for nodes, and the record's COUNTRY link, when its
    prefix and that country are registered, points at the node of that
    value.  Conversely every COUNTRY link handed to the client points at
    the node of the table's value for the scope of some record.  In
    particular us-west1 resolves to US and europe-west9 to FR. *)
Theorem known_scope_country data s :
  (∃ s' o, run_yields fromisoformat data s s' o)
  ∧ REGION_TO_COUNTRY !! "us-west1" = Some "US"
  ∧ REGION_TO_COUNTRY !! "europe-west9" = Some "FR"
  ∧ ∀ s' o, run_yields fromisoformat data s s' o →
      (∀ r cc, r ∈ v_items o → REGION_TO_COUNTRY !! scope r = Some cc →
         cc ∈ v_countries o
         ∧ (∀ P S C s0,
              collect_body r (P, S, C) s0
              = Ok ((P ∪ {[ prefix r ]}, S ∪ {[ service r ]}, C ∪ {[ cc ]}), s0))
         ∧ ∀ p c, v_prefix_id o !! prefix r = Some p →
                  v_country_id o !! cc = Some c →
                  mk_Link p c [reference s'] ∈ v_country_links o)
      ∧ ∀ l, l ∈ v_country_links o →
          ∃ r cc, r ∈ v_items o
                  ∧ REGION_TO_COUNTRY !! scope r = Some cc
                  ∧ v_prefix_id o !! prefix r = Some (src_id l)
                  ∧ v_country_id o !! cc = Some (dst_id l).
Proof.
  split; [apply run_total|].
  split; [by vm_compute|]. split; [by vm_compute|].
  intros s' o Hy.
  pose proof (run_yields_facts _ _ _ _ _ Hy)
    as (_ & _ & _ & Hc & _ & _ & Hctry & _).
  split.
  - intros r cc Hr Hcc. split; [|split].
    + rewrite Hc. apply elem_of_country_set. eauto.
    + intros P S C s0. rewrite collect_body_spec.
      unfold unknown_scope_log, country_of_scope. rewrite Hcc. simpl.
      by rewrite add_log_nil, union_empty_r_L.
    + intros p c Hp Hcid. rewrite Hctry. apply list_elem_of_bind.
      exists r. split; [|done]. apply elem_of_country_link_of.
      exists p, cc, c. repeat split; first [assumption|reflexivity].
  - intros l. rewrite Hctry, list_elem_of_bind. intros (r & Hl & Hr).
    apply elem_of_country_link_of in Hl as (p & cc & c & Hp & Hcc & Hcid & ->).
    exists r, cc. repeat split; first [assumption|reflexivity].
Qed.

(** C5: a record whose scope is not a key of REGION_TO_COUNTRY (the
    empty scope is not one) adds no COUNTRY link and the run does not
    raise: the loop body returns country_links as it was, the COUNTRY
    links of the run are those of the records with a known scope alone,
    and when the scope is not empty the run logs it at debug level.  The
    debug records of the run are exactly those. *)
Theorem unknown_scope_skipped data s :
  (∃ s' o, run_yields fromisoformat data s s' o)
  ∧ REGION_TO_COUNTRY !! EmptyString = None
  ∧ ∀ s' o, run_yields fromisoformat data s s' o →
      ∃ new_log,
        logged s' = logged s ++ new_log
        ∧ (∀ r, r ∈ v_items o → REGION_TO_COUNTRY !! scope r = None →
             (∀ cat ctry s0, ∃ cat',
                link_body (v_prefix_id o) (v_tag_id o) (v_country_id o) r
                  (cat, ctry) s0 = Ok ((cat', ctry), s0))
             ∧ (scope r ≠ EmptyString →
                (DEBUG, "Unknown GCP region/scope: " +:+ scope r) ∈ new_log))
        ∧ (∀ msg, (DEBUG, msg) ∈ new_log →
             ∃ r, r ∈ v_items o ∧ REGION_TO_COUNTRY !! scope r = None
                  ∧ scope r ≠ EmptyString
                  ∧ msg = "Unknown GCP region/scope: " +:+ scope r)
        ∧ (∃ cat, prepare_relationships (v_prefix_id o) (v_tag_id o) (v_country_id o)
                    (filter (λ r, is_Some (REGION_TO_COUNTRY !! scope r)) (v_items o)) s'
                  = Ok ((cat, v_country_links o), s')).
Proof.
  split; [apply run_total|]. split; [by vm_compute|].
  intros s' o Hy.
  pose proof (run_yields_facts _ _ _ _ _ Hy)
    as (Hi & _ & _ & _ & _ & _ & Hctry & Hlog & _).
  eexists. split; [exact Hlog|]. split; [|split].
  - intros r Hr Hnone. split.
    + intros cat ctry s0. rewrite link_body_spec. eexists.
      unfold country_link_of at 1. rewrite Hnone.
      destruct (v_prefix_id o !! prefix r); by rewrite app_nil_r.
    + intros Hne. unfold run_log. rewrite <- Hi.
      rewrite !elem_of_app. right; right; right; left.
      apply list_elem_of_bind. exists r. split; [|done].
      apply elem_of_unknown_scope_log. repeat split; first [assumption|reflexivity].
  - intros msg. unfold run_log. rewrite <- Hi, !elem_of_app.
    intros [H|[H|[H|[H|H]]]].
    + apply list_elem_of_singleton in H. discriminate.
    + unfold stamp_log in H.
      destruct (creationTime data) as [t|]; [destruct (fromisoformat t)|];
        rewrite ?list_elem_of_singleton, ?elem_of_nil in H; try done.
    + apply list_elem_of_singleton in H. discriminate.
    + apply list_elem_of_bind in H as (r & H & Hr).
      apply elem_of_unknown_scope_log in H as (Hnone & Hne & [= ->]).
      exists r. repeat split; first [assumption|reflexivity].
    + rewrite !elem_of_cons, elem_of_nil in H.
      destruct H as [H|[H|[H|[H|[]]]]]; discriminate.
  - eexists. rewrite prepare_relationships_spec, country_link_of_known, <- Hctry.
    reflexivity.
Qed.

(** C6, amended: when creationTime is present and is a string that the
    parser rejects, the run does not raise: the creationTime step logs one
    warning naming the value and leaves the reference as it was, so
    reference_time_modification keeps the value it had before the run
    (unset when it was unset), and the run completes.  A creationTime
    that is present but not a string is not covered: the parser's
    TypeError is not a ValueError and leaves the method. *)
Theorem malformed_creation_time (resp : JsonResponse) (body : JsonBody) s t :
  ¬ 400 ≤ json_status_code resp < 600 →
  json_body resp = Some body →
  json_creationTime body = Some (JString t) →
  fromisoformat t = None →
  parse_creation_time_json fromisoformat body s
  = Ok (tt, add_log s [ (WARNING, "Could not parse creationTime: " +:+ t) ])
  ∧ ∃ s' o new_log,
      run_json fromisoformat (Ok resp) s = Ok (tt, s')
      ∧ run_yields fromisoformat (mk_Data (Some t) (json_prefixes body)) s s' o
      ∧ reference s' = reference s
      ∧ reference s' !! "reference_time_modification"
        = reference s !! "reference_time_modification"
      ∧ logged s' = logged s ++ new_log
      ∧ (WARNING, "Could not parse creationTime: " +:+ t) ∈ new_log.
Proof.
  intros Hst Hbody Ht Hbad.
  destruct body as [v ps]. cbn [json_creationTime json_prefixes] in *. subst v.
  pose (data := mk_Data (Some t) ps).
  assert (creationTime data = Some t) as Hct by reflexivity.
  change (mk_Data (Some t) ps) with data.
  split.
  - etrans; [apply (parse_creation_time_json_typed fromisoformat data)|].
    rewrite parse_creation_time_spec. unfold stamped, stamp_log, add_log.
    by rewrite Hct, Hbad.
  - destruct (run_spec fromisoformat data s) as (s' & o & Hy & Hf).
    destruct Hf as (_ & _ & _ & _ & Href & _ & _ & Hlog & _).
    unfold stamped in Href. rewrite Hct, Hbad in Href.
    exists s', o. eexists.
    split.
    { rewrite run_json_response, bool_decide_eq_false_2, Hbody by assumption.
      etrans; [apply (run_json_typed_ok fromisoformat data)|]. apply Hy. }
    split; [exact Hy|]. split; [exact Href|].
    split; [by rewrite Href|]. split; [exact Hlog|].
    unfold run_log, stamp_log. rewrite Hct, Hbad.
    rewrite !elem_of_app. right; left. by apply list_elem_of_singleton.
Qed.

(** C10: the prefix keys, service names and country codes submitted for
    node get-or-create are sets holding exactly the values that occur in
    the extracted records (for countries: the table's values for the
    scopes that occur), each once however many records carry it, in one
    call per node kind; every submitted country code is a value of
    REGION_TO_COUNTRY. *)
Theorem submitted_keys_unique data s :
  ∃ s' o,
    run_yields fromisoformat data s s' o
    ∧ (∀ s0, ∃ s0', collect_unique (v_items o) s0
                    = Ok ((v_prefixes o, v_services o, v_countries o), s0'))
    ∧ (∀ x, x ∈ v_prefixes o ↔ ∃ r, r ∈ v_items o ∧ prefix r = x)
    ∧ (∀ x, x ∈ v_services o ↔ ∃ r, r ∈ v_items o ∧ service r = x)
    ∧ (∀ x, x ∈ v_countries o
            ↔ ∃ r, r ∈ v_items o ∧ REGION_TO_COUNTRY !! scope r = Some x)
    ∧ NoDup (elements (v_prefixes o))
    ∧ NoDup (elements (v_services o))
    ∧ NoDup (elements (v_countries o))
    ∧ (∀ x, x ∈ v_countries o → ∃ region, REGION_TO_COUNTRY !! region = Some x).
Proof.
  destruct (run_spec fromisoformat data s) as (s' & o & Hy & Hf).
  destruct Hf as (_ & Hp & Hs & Hc & _).
  exists s', o. split; [exact Hy|].
  split; [intros s0; eexists; rewrite collect_unique_spec, Hp, Hs, Hc; reflexivity|].
  rewrite Hp, Hs, Hc.
  split; [apply elem_of_prefix_set|]. split; [apply elem_of_service_set|].
  split; [apply elem_of_country_set|].
  split; [apply NoDup_elements|]. split; [apply NoDup_elements|].
  split; [apply NoDup_elements|].
  intros x (r & _ & Hr)%elem_of_country_set. eauto.
Qed.

End claims.

(** ** The graph store *)

Section graph.
Implicit Types (g : Graph) (label prop key kind : string).

Lemma get_or_create_nodes label prop key g :
  nodes g ⊆ nodes (get_or_create label prop key g).2.
Proof.
  unfold get_or_create.
  destruct (nodes g !! (label, prop, key)) eqn:E; simpl; [done|].
  by apply insert_subseteq.
Qed.

Lemma get_or_create_lookup label prop key g :
  nodes (get_or_create label prop key g).2 !! (label, prop, key)
  = Some (get_or_create label prop key g).1.
Proof.
  unfold get_or_create.
  destruct (nodes g !! (label, prop, key)) eqn:E; simpl; [done|].
  apply lookup_insert_eq.
Qed.

Lemma get_or_create_present label prop key g i :
  nodes g !! (label, prop, key) = Some i →
  get_or_create label prop key g = (i, g).
Proof. intros E. unfold get_or_create. by rewrite E. Qed.

Lemma get_or_create_links label prop key g :
  links (get_or_create label prop key g).2 = links g.
Proof.
  unfold get_or_create. by destruct (nodes g !! (label, prop, key)).
Qed.

Lemma add_label_has l i j l' (lbls : gmap Z (gset string)) L :
  lbls !! j = Some L → l' ∈ L →
  ∃ L', add_label l i lbls !! j = Some L' ∧ l' ∈ L'.
Proof.
  intros Hj Hl. unfold add_label. destruct (decide (i = j)) as [->|Hne].
  - rewrite lookup_insert_eq, Hj. simpl. eexists; split; [done|]. set_solver.
  - rewrite lookup_insert_ne by done. eauto.
Qed.

Lemma add_label_adds l i (lbls : gmap Z (gset string)) :
  ∃ L, add_label l i lbls !! i = Some L ∧ l ∈ L.
Proof.
  unfold add_label. rewrite lookup_insert_eq. eexists; split; [done|]. set_solver.
Qed.

Lemma add_label_id l i (lbls : gmap Z (gset string)) L :
  lbls !! i = Some L → l ∈ L → add_label l i lbls = lbls.
Proof.
  intros Hi Hl. unfold add_label. rewrite Hi. simpl.
  apply insert_id. rewrite Hi. f_equal. set_solver.
Qed.

Lemma get_or_create_has_label label prop key g i l :
  has_label g i l → has_label (get_or_create label prop key g).2 i l.
Proof.
  intros (L & Hi & Hl). unfold get_or_create, has_label.
  destruct (nodes g !! (label, prop, key)); simpl; [eauto|].
  by eapply add_label_has.
Qed.

(** The batch over a list of keys. *)
Lemma get_fold_spec label prop (l : list string) g :
  let r := foldr (get_step label prop) (∅, g) l in
  nodes g ⊆ nodes r.2
  ∧ links r.2 = links g
  ∧ (∀ i lb, has_label g i lb → has_label r.2 i lb)
  ∧ (∀ k, k ∈ l → is_Some (nodes r.2 !! (label, prop, k)))
  ∧ (∀ k, r.1 !! k = if decide (k ∈ l) then nodes r.2 !! (label, prop, k) else None).
Proof.
  induction l as [|x l IH]; cbn zeta.
  - simpl. split; [done|]. split; [done|]. split; [done|].
    split; [intros k Hk; by apply elem_of_nil in Hk|].
    intros k. rewrite lookup_empty.
    destruct (decide (k ∈ [])) as [Hk|_]; [by apply elem_of_nil in Hk|done].
  - cbn [foldr]. cbn zeta in IH.
    destruct (foldr (get_step label prop) (∅, g) l) as [m g1].
    destruct IH as (Hsub & Hlinks & Hlab & Hsome & Hm). simpl in *.
    unfold get_step. simpl.
    pose proof (get_or_create_nodes label prop x g1) as Hsub'.
    pose proof (get_or_create_lookup label prop x g1) as Hx.
    pose proof (get_or_create_links label prop x g1) as Hl'.
    pose proof (λ i lb, get_or_create_has_label label prop x g1 i lb) as Hlab'.
    destruct (get_or_create label prop x g1) as [i g2]. simpl in *.
    split; [by etrans|]. split; [congruence|]. split; [eauto|].
    assert (∀ k, k ∈ l → nodes g2 !! (label, prop, k) = nodes g1 !! (label, prop, k)) as Hkeep.
    { intros k Hk. destruct (Hsome k Hk) as [j Hj]. rewrite Hj.
      by eapply lookup_weaken. }
    split.
    + intros k [->|Hk]%elem_of_cons; [eauto|]. rewrite Hkeep by done. eauto.
    + intros k. destruct (decide (k = x)) as [->|Hne].
      * rewrite lookup_insert_eq, decide_True by apply list_elem_of_here. done.
      * rewrite lookup_insert_ne by done. rewrite Hm.
        destruct (decide (k ∈ l)) as [Hk|Hk].
        -- rewrite decide_True by (by apply list_elem_of_further). by rewrite Hkeep.
        -- rewrite decide_False; [done|]. rewrite elem_of_cons. naive_solver.
Qed.

(** With every key already a node, the batch changes nothing. *)
Lemma get_fold_present label prop (l : list string) g :
  (∀ k, k ∈ l → is_Some (nodes g !! (label, prop, k))) →
  (foldr (get_step label prop) (∅, g) l).2 = g.
Proof.
  induction l as [|x l IH]; intros Hall; [done|].
  cbn [foldr]. unfold get_step at 1.
  rewrite IH by (intros k Hk; apply Hall; by apply list_elem_of_further).
  destruct (Hall x) as [i Hi]; [apply list_elem_of_here|].
  rewrite (get_or_create_present _ _ _ _ _ Hi). done.
Qed.

Lemma graph_get_nodes_spec label prop (keys : gset string) all g :
  let r := graph_get_nodes label prop keys all g in
  nodes g ⊆ nodes r.2
  ∧ links r.2 = links g
  ∧ (∀ i lb, has_label g i lb → has_label r.2 i lb)
  ∧ (∀ k, k ∈ keys → is_Some (nodes r.2 !! (label, prop, k)))
  ∧ (∀ k, r.1 !! k = if decide (k ∈ keys) then nodes r.2 !! (label, prop, k) else None).
Proof.
  unfold graph_get_nodes, set_fold. cbn zeta. simpl.
  destruct (get_fold_spec label prop (elements keys) g)
    as (H1 & H2 & H3 & H4 & H5).
  split; [done|]. split; [done|]. split; [done|]. split.
  - intros k Hk. apply H4. by apply elem_of_elements.
  - intros k. rewrite H5.
    destruct (decide (k ∈ keys)) as [Hk|Hk].
    + rewrite decide_True by (by apply elem_of_elements). done.
    + rewrite decide_False; [done|]. by rewrite elem_of_elements.
Qed.

Lemma graph_get_nodes_present label prop (keys : gset string) all g :
  (∀ k, k ∈ keys → is_Some (nodes g !! (label, prop, k))) →
  (graph_get_nodes label prop keys all g).2 = g.
Proof.
  intros Hall. unfold graph_get_nodes, set_fold. simpl.
  apply get_fold_present. intros k Hk. apply Hall. by apply elem_of_elements.
Qed.

(** Labelling. *)
Lemma add_labels_has l (ids : list Z) (lbls : gmap Z (gset string)) j lb L :
  lbls !! j = Some L → lb ∈ L →
  ∃ L', foldr (add_label l) lbls ids !! j = Some L' ∧ lb ∈ L'.
Proof.
  intros Hj Hlb. induction ids as [|i ids IH]; simpl; [eauto|].
  destruct IH as (L' & H1 & H2). by eapply add_label_has.
Qed.

Lemma add_labels_adds l (ids : list Z) (lbls : gmap Z (gset string)) i :
  i ∈ ids → ∃ L, foldr (add_label l) lbls ids !! i = Some L ∧ l ∈ L.
Proof.
  induction ids as [|j ids IH]; [by intros ?%elem_of_nil|].
  intros [->|Hi]%elem_of_cons; simpl.
  - apply add_label_adds.
  - destruct (IH Hi) as (L & H1 & H2). by eapply add_label_has.
Qed.

Lemma add_labels_id l (ids : list Z) (lbls : gmap Z (gset string)) :
  (∀ i, i ∈ ids → ∃ L, lbls !! i = Some L ∧ l ∈ L) →
  foldr (add_label l) lbls ids = lbls.
Proof.
  induction ids as [|j ids IH]; intros Hall; [done|]. simpl.
  rewrite IH by (intros i Hi; apply Hall; by apply list_elem_of_further).
  destruct (Hall j) as (L & H1 & H2); [apply list_elem_of_here|].
  by eapply add_label_id.
Qed.

(** Upserting links. *)
Lemma upsert_links_union kind (ls : list Link)
    (m : gmap (string * Z * Z) (list Reference)) :
  foldl (upsert_link kind) m ls = foldl (upsert_link kind) ∅ ls ∪ m.
Proof.
  revert m. induction ls as [|l ls IH]; intros m; simpl.
  - by rewrite (left_id_L ∅ (∪)).
  - rewrite IH, (IH (upsert_link kind ∅ l)). unfold upsert_link.
    rewrite insert_empty, <- (assoc_L (∪)), <- insert_union_singleton_l. done.
Qed.

Lemma upsert_links_dom kind (ls : list Link)
    (m : gmap (string * Z * Z) (list Reference)) :
  dom (foldl (upsert_link kind) m ls)
  = dom m ∪ list_to_set (link_key kind <$> ls).
Proof.
  revert m. induction ls as [|l ls IH]; intros m; simpl.
  - by rewrite (right_id_L ∅ (∪)).
  - rewrite IH. unfold upsert_link at 1. rewrite dom_insert_L.
    unfold link_key at 2. set_solver.
Qed.

Lemma upsert_links_twice (kind1 kind2 : string) (ls1 ls2 : list Link)
    (m : gmap (string * Z * Z) (list Reference)) :
  let once := foldl (upsert_link kind2) (foldl (upsert_link kind1) m ls1) ls2 in
  foldl (upsert_link kind2) (foldl (upsert_link kind1) once ls1) ls2 = once.
Proof.
  cbn zeta.
  rewrite (upsert_links_union kind2 ls2 (foldl (upsert_link kind1) m ls1)).
  rewrite (upsert_links_union kind1 ls1 m).
  rewrite (upsert_links_union kind2 ls2 (foldl _ _ ls1)).
  rewrite (upsert_links_union kind1 ls1 (_ ∪ _)).
  set (A := foldl (upsert_link kind1) ∅ ls1).
  set (B := foldl (upsert_link kind2) ∅ ls2).
  apply map_eq. intros k. rewrite !lookup_union.
  destruct (B !! k), (A !! k), (m !! k); done.
Qed.

(** The link keys do not depend on the reference attached. *)
Lemma categorized_keys kind prefix_id tag_id ref ref' (items : list Item) :
  link_key kind <$> (items ≫= categorized_of prefix_id tag_id ref)
  = link_key kind <$> (items ≫= categorized_of prefix_id tag_id ref').
Proof.
  induction items as [|r items IH]; [done|].
  rewrite !bind_cons, !fmap_app, IH. f_equal.
  unfold categorized_of.
  by destruct (prefix_id !! prefix r), (tag_id !! service r).
Qed.

Lemma country_keys kind prefix_id country_id ref ref' (items : list Item) :
  link_key kind <$> (items ≫= country_link_of prefix_id country_id ref)
  = link_key kind <$> (items ≫= country_link_of prefix_id country_id ref').
Proof.
  induction items as [|r items IH]; [done|].
  rewrite !bind_cons, !fmap_app, IH. f_equal.
  unfold country_link_of.
  destruct (prefix_id !! prefix r); [|done].
  destruct (REGION_TO_COUNTRY !! scope r) as [cc|]; [|done].
  by destruct (country_id !! cc).
Qed.

End graph.

(** ** Running twice on the graph store *)

Section rerun.
Variable fromisoformat : string → option datetime.
Implicit Types (g : Graph) (s : Crawler Graph) (o : Locals).

(** A batch repeated on a later store finds every node and answers as
    before. *)
Lemma graph_get_nodes_again (label prop : string) (keys : gset string)
    all g g1 gf (m : gmap string Z) :
  graph_get_nodes label prop keys all g = (m, g1) →
  nodes g1 ⊆ nodes gf →
  graph_get_nodes label prop keys all gf = (m, gf).
Proof.
  intros E Hsub.
  pose proof (graph_get_nodes_spec label prop keys all g) as H. cbn zeta in H.
  rewrite E in H. simpl in H. destruct H as (_ & _ & _ & Hsome & Hm).
  assert (∀ k, k ∈ keys → nodes gf !! (label, prop, k) = nodes g1 !! (label, prop, k))
    as Hkeep.
  { intros k Hk. destruct (Hsome k Hk) as [j Hj]. rewrite Hj.
    by eapply lookup_weaken. }
  assert (∀ k, k ∈ keys → is_Some (nodes gf !! (label, prop, k))) as Hsome'.
  { intros k Hk. rewrite Hkeep by done. auto. }
  pose proof (graph_get_nodes_spec label prop keys all gf) as H'. cbn zeta in H'.
  pose proof (graph_get_nodes_present label prop keys all gf Hsome') as Hg.
  destruct (graph_get_nodes label prop keys all gf) as [m' gf']. simpl in *.
  subst gf'. destruct H' as (_ & _ & _ & _ & Hm').
  f_equal. apply map_eq. intros k. rewrite Hm, Hm'.
  destruct (decide (k ∈ keys)); [by apply Hkeep|done].
Qed.

Lemma graph_add_node_label_again (ids : list Z) (label : string) g :
  (∀ i, i ∈ ids → has_label g i label) →
  graph_add_node_label ids label g = g.
Proof.
  intros Hall. unfold graph_add_node_label.
  rewrite add_labels_id by exact Hall. by destruct g.
Qed.

(** C9: on the graph store, a second run on the same data leaves the
    graph as the first run left it.  Whatever crawler object starts the
    second run on the store the first one produced, the replies of the
    client are those of the first run, and the node set, the labels and
    the edge set (type, source, target) are unchanged; when the second
    run carries the same reference, the edge properties are unchanged as
    well, so the whole store is. *)
Theorem rerun_idempotent data s :
  ∃ s1 o1,
    run_yields fromisoformat data s s1 o1
    ∧ ∀ s1', iyp s1' = iyp s1 →
        ∃ s2 o2,
          run_yields fromisoformat data s1' s2 o2
          ∧ v_prefix_id o2 = v_prefix_id o1
          ∧ v_tag_id o2 = v_tag_id o1
          ∧ v_country_id o2 = v_country_id o1
          ∧ nodes (iyp s2) = nodes (iyp s1)
          ∧ node_labels (iyp s2) = node_labels (iyp s1)
          ∧ dom (links (iyp s2)) = dom (links (iyp s1))
          ∧ (reference s2 = reference s1 → iyp s2 = iyp s1).
Proof.
  destruct (run_spec fromisoformat data s) as (s1 & o1 & Hy1 & Hf1).
  exists s1, o1. split; [exact Hy1|]. intros s1' Hsame.
  destruct (run_spec fromisoformat data s1') as (s2 & o2 & Hy2 & Hf2).
  exists s2, o2. split; [exact Hy2|].
  destruct Hf1 as (Hi1 & HP1 & HS1 & HC1 & _ & Hcat1 & Hctry1 & _
                   & g1 & g3 & g4 & E1 & E2 & E3 & Hg1).
  destruct Hf2 as (Hi2 & HP2 & HS2 & HC2 & _ & Hcat2 & Hctry2 & _
                   & g1' & g3' & g4' & E1' & E2' & E3' & Hg2).
  rewrite Hi2, <- Hi1 in HP2, HS2, HC2, Hcat2, Hctry2.
  rewrite HP2, <- HP1 in E1'. rewrite HS2, <- HS1 in E2'.
  rewrite HC2, <- HC1 in E3'. rewrite Hsame in E1'.
  cbn [batch_get_nodes_by_single_prop batch_add_node_label batch_add_links
       graph_iyp] in *.
  set (g2 := graph_add_node_label (dict_values (v_prefix_id o1)) "Prefix" g1) in *.
  pose proof (graph_get_nodes_spec "GeoPrefix" "prefix" (v_prefixes o1) false (iyp s)) as S1.
  pose proof (graph_get_nodes_spec "Tag" "label" (v_services o1) false g2) as S2.
  pose proof (graph_get_nodes_spec "Country" "country_code" (v_countries o1) false g3) as S3.
  cbn zeta in S1, S2, S3. rewrite E1 in S1. rewrite E2 in S2. rewrite E3 in S3.
  simpl in S1, S2, S3.
  destruct S1 as (_ & _ & _ & _ & _).
  destruct S2 as (Hn2 & _ & Hl2 & _ & _).
  destruct S3 as (Hn3 & _ & Hl3 & _ & _).
  assert (nodes (iyp s1) = nodes g4) as Hnodes by (by rewrite Hg1).
  assert (node_labels (iyp s1) = node_labels g4) as Hlabels by (by rewrite Hg1).
  assert (nodes g1 ⊆ nodes (iyp s1)) as Hsub1.
  { rewrite Hnodes. etrans; [|exact Hn3]. etrans; [|exact Hn2]. done. }
  assert (nodes g3 ⊆ nodes (iyp s1)) as Hsub3 by (by rewrite Hnodes).
  assert (nodes g4 ⊆ nodes (iyp s1)) as Hsub4 by (by rewrite Hnodes).
  (* the second run's get-or-create and labelling change nothing *)
  rewrite (graph_get_nodes_again _ _ _ _ _ _ _ _ E1 Hsub1) in E1'.
  injection E1' as Hpid <-.
  rewrite <- Hpid in *.
  assert (graph_add_node_label (dict_values (v_prefix_id o1)) "Prefix" (iyp s1)
          = iyp s1) as Hrelabel.
  { apply graph_add_node_label_again. intros i Hi.
    assert (has_label g4 i "Prefix") as (L & HL & Hin).
    { apply Hl3, Hl2. unfold has_label, g2. simpl. by apply add_labels_adds. }
    exists L. by rewrite Hlabels. }
  rewrite Hrelabel in E2'.
  rewrite (graph_get_nodes_again _ _ _ _ _ _ _ _ E2 Hsub3) in E2'.
  injection E2' as Htid <-. rewrite <- Htid in *.
  rewrite (graph_get_nodes_again _ _ _ _ _ _ _ _ E3 Hsub4) in E3'.
  injection E3' as Hcid <-. rewrite <- Hcid in *.
  split; [done|]. split; [done|]. split; [done|].
  rewrite Hg2. cbn [graph_add_links nodes node_labels links].
  split; [done|]. split; [done|]. split.
  - rewrite !upsert_links_dom, Hcat2, Hctry2.
    rewrite (categorized_keys _ _ _ _ (reference s1)),
            (country_keys _ _ _ _ (reference s1)), <- Hcat1, <- Hctry1.
    rewrite Hg1. cbn [graph_add_links links]. rewrite !upsert_links_dom.
    apply set_eq. intros k. rewrite !elem_of_union. tauto.
  - intros Href. rewrite Href, <- Hcat1 in Hcat2. rewrite Href, <- Hctry1 in Hctry2.
    rewrite Hcat2, Hctry2, Hg1.
    unfold graph_add_links. cbn [nodes node_labels links].
    f_equal. apply upsert_links_twice.
Qed.

End rerun.

(** ** The published example and other concrete runs *)

Lemma items_of_cloud_json : items_of cloud_json = [item_8888].
Proof. compute_eq. Qed.

Lemma example_nodes_created :
  let r1 := graph_get_nodes "GeoPrefix" "prefix" {[ "8.8.8.0/24" ]} false empty_graph in
  let g2 := graph_add_node_label (dict_values r1.1) "Prefix" r1.2 in
  let r3 := graph_get_nodes "Tag" "label" {[ "Google Cloud" ]} false g2 in
  let r4 := graph_get_nodes "Country" "country_code" {[ "US" ]} false r3.2 in
  r1.1 = {[ "8.8.8.0/24" := 0 ]}
  ∧ r3.1 = {[ "Google Cloud" := 1 ]}
  ∧ r4.1 = {[ "US" := 2 ]}
  ∧ r4.2 = example_graph.
Proof. cbv zeta. repeat split; compute_eq. Qed.

Lemma example_locals {Store} `{!IYP Store} fromisoformat (s : Crawler Store) :
  ∃ s' o,
    run_yields fromisoformat cloud_json s s' o
    ∧ reference s' = reference s
    ∧ v_items o = [item_8888]
    ∧ v_prefixes o = {[ "8.8.8.0/24" ]}
    ∧ v_services o = {[ "Google Cloud" ]}
    ∧ v_countries o = {[ "US" ]}
    ∧ v_categorized_links o
      = match v_prefix_id o !! "8.8.8.0/24", v_tag_id o !! "Google Cloud" with
        | Some p, Some t => [ mk_Link p t [reference s] ]
        | _, _ => []
        end
    ∧ v_country_links o
      = match v_prefix_id o !! "8.8.8.0/24", v_country_id o !! "US" with
        | Some p, Some c => [ mk_Link p c [reference s] ]
        | _, _ => []
        end.
Proof.
  destruct (run_spec fromisoformat cloud_json s) as (s' & o & Hy & Hf).
  destruct Hf as (Hi & HP & HS & HC & Href & Hcat & Hctry & _).
  rewrite items_of_cloud_json in Hi. rewrite Hi in *.
  change (stamped fromisoformat cloud_json (reference s)) with (reference s) in Href.
  exists s', o. split; [exact Hy|]. split; [exact Href|]. split; [exact Hi|].
  split; [rewrite HP; compute_eq|].
  split; [rewrite HS; compute_eq|].
  split; [rewrite HC; compute_eq|].
  rewrite Hcat, Hctry, Href, !bind_singleton.
  unfold categorized_of, country_link_of.
  change (prefix item_8888) with "8.8.8.0/24".
  change (service item_8888) with "Google Cloud".
  replace (REGION_TO_COUNTRY !! scope item_8888) with (Some "US") by compute_eq.
  split; [reflexivity|].
  destruct (v_prefix_id o !! "8.8.8.0/24"); [|reflexivity].
  by destruct (v_country_id o !! "US").
Qed.

(** C8: on the published example the run extracts the single record,
    submits the prefix 8.8.8.0/24, the service Google Cloud and the
    country US for one node each, and hands the client one CATEGORIZED and
    one COUNTRY link between the ids it got back (whatever the client); on
    the graph store, starting empty, the result is exactly one GeoPrefix
    node 8.8.8.0/24 (also labelled Prefix), one Tag node Google Cloud, one
    Country node US, one CATEGORIZED edge from the prefix to the tag and
    one COUNTRY edge from the prefix to the country. *)
Theorem end_to_end_example (fromisoformat : string → option datetime)
    (ref : Reference) :
  (∀ Store (client : IYP Store) (s : Crawler Store),
     ∃ s' o,
       run_yields fromisoformat cloud_json s s' o
       ∧ v_items o = [item_8888]
       ∧ v_prefixes o = {[ "8.8.8.0/24" ]}
       ∧ v_services o = {[ "Google Cloud" ]}
       ∧ v_countries o = {[ "US" ]}
       ∧ v_categorized_links o
         = match v_prefix_id o !! "8.8.8.0/24", v_tag_id o !! "Google Cloud" with
           | Some p, Some t => [ mk_Link p t [reference s] ]
           | _, _ => []
           end
       ∧ v_country_links o
         = match v_prefix_id o !! "8.8.8.0/24", v_country_id o !! "US" with
           | Some p, Some c => [ mk_Link p c [reference s] ]
           | _, _ => []
           end)
  ∧ ∃ s' o,
      run_yields fromisoformat cloud_json (new_crawler ref empty_graph) s' o
      ∧ v_prefix_id o = {[ "8.8.8.0/24" := 0 ]}
      ∧ v_tag_id o = {[ "Google Cloud" := 1 ]}
      ∧ v_country_id o = {[ "US" := 2 ]}
      ∧ v_categorized_links o = [ mk_Link 0 1 [ref] ]
      ∧ v_country_links o = [ mk_Link 0 2 [ref] ]
      ∧ nodes (iyp s')
        = <[("GeoPrefix", "prefix", "8.8.8.0/24") := 0]>
            (<[("Tag", "label", "Google Cloud") := 1]>
               (<[("Country", "country_code", "US") := 2]> ∅))
      ∧ node_labels (iyp s')
        = <[0 := {[ "GeoPrefix"; "Prefix" ]}]>
            (<[1 := {[ "Tag" ]}]> (<[2 := {[ "Country" ]}]> ∅))
      ∧ links (iyp s')
        = <[("COUNTRY", 0, 2) := [ref]]>
            (<[("CATEGORIZED", 0, 1) := [ref]]> ∅).
Proof.
  split.
  - intros Store client s.
    destruct (example_locals fromisoformat s) as (s' & o & Hy & _ & H).
    exists s', o. done.
  - destruct (example_locals fromisoformat (new_crawler ref empty_graph))
      as (s' & o & Hy & _ & Hi & HP & HS & HC & Hcat & Hctry).
    pose proof (run_yields_facts _ _ _ _ _ Hy)
      as (_ & _ & _ & _ & _ & _ & _ & _ & g1 & g3 & g4 & E1 & E2 & E3 & Hg).
    rewrite HP in E1. rewrite HS in E2. rewrite HC in E3.
    cbn [batch_get_nodes_by_single_prop batch_add_node_label batch_add_links
         graph_iyp new_crawler iyp reference] in E1, E2, E3, Hg, Hcat, Hctry.
    pose proof example_nodes_created as Hex. cbv zeta in Hex.
    rewrite E1 in Hex. cbn [fst snd] in Hex.
    rewrite E2 in Hex. cbn [fst snd] in Hex.
    rewrite E3 in Hex. cbn [fst snd] in Hex.
    destruct Hex as (Hpid & Htid & Hcid & Hg4).
    rewrite Hpid, Htid in Hcat. rewrite Hpid, Hcid in Hctry.
    rewrite lookup_singleton_eq in Hcat, Hctry.
    rewrite lookup_singleton_eq in Hcat, Hctry.
    exists s', o. split; [exact Hy|].
    repeat (split; [assumption|]).
    rewrite Hg, Hcat, Hctry, Hg4. repeat split; compute_eq.
Qed.

(** ** Instances *)

Lemma items_of_mixed_json :
  items_of mixed_json
  = [ item_8888;
      mk_Item "34.80.0.0/15" "Google Cloud" "asia-east1" 4;
      mk_Item "2600:1900:4030::/44" "Google Cloud" "asia-east1" 6;
      mk_Item "2600:1901::/48" "Google Cloud" "global" 6;
      mk_Item "35.190.0.0/17" "Google Cloud" EmptyString 4 ].
Proof. compute_eq. Qed.

(** The example run against a client that answers without the prefix. *)
Lemma run_without_prefix :
  ∃ s' o,
    run_yields (IYP0 := canned_iyp replies_without_prefix) date_fromisoformat
      cloud_json (new_crawler sample_reference tt) s' o
    ∧ v_items o = [item_8888]
    ∧ v_prefix_id o = ∅
    ∧ v_tag_id o = {[ "Google Cloud" := 1 ]}
    ∧ v_country_id o = {[ "US" := 2 ]}
    ∧ v_categorized_links o = []
    ∧ v_country_links o = [].
Proof.
  destruct (example_locals (IYP0 := canned_iyp replies_without_prefix)
              date_fromisoformat (new_crawler sample_reference tt))
    as (s' & o & Hy & _ & Hi & _ & _ & _ & Hcat & Hctry).
  pose proof (run_yields_facts _ _ _ _ _ Hy)
    as (_ & _ & _ & _ & _ & _ & _ & _ & st1 & st3 & st4 & E1 & E2 & E3 & _).
  cbn [batch_get_nodes_by_single_prop canned_iyp] in E1, E2, E3.
  apply pair_equal_spec in E1 as [E1 _].
  apply pair_equal_spec in E2 as [E2 _].
  apply pair_equal_spec in E3 as [E3 _].
  assert (v_prefix_id o = ∅) as Hp by (rewrite <- E1; compute_eq).
  assert (v_tag_id o = {[ "Google Cloud" := 1 ]}) as Ht
    by (rewrite <- E2; compute_eq).
  assert (v_country_id o = {[ "US" := 2 ]}) as Hc
    by (rewrite <- E3; compute_eq).
  exists s', o. rewrite Hp in Hcat, Hctry. rewrite lookup_empty in Hcat, Hctry.
  cbv iota in Hcat, Hctry. split; [exact Hy|]. repeat split; assumption.
Qed.

(** C1 as stated fails: when the client's prefix_id reply lacks the
    prefix of a record whose service it did register, the record counts
    among those whose service resolved to a Tag node, yet no CATEGORIZED
    link is handed over for it. *)
Lemma categorized_count_counterexample :
  ∃ s' o,
    run_yields (IYP0 := canned_iyp replies_without_prefix) date_fromisoformat
      cloud_json (new_crawler sample_reference tt) s' o
    ∧ v_items o = [item_8888]
    ∧ v_prefix_id o = ∅
    ∧ v_tag_id o = {[ "Google Cloud" := 1 ]}
    ∧ v_categorized_links o = []
    ∧ length (filter (λ r, service r ∈ dom (v_tag_id o)) (v_items o)) = 1%nat
    ∧ length (v_categorized_links o)
      ≠ length (filter (λ r, service r ∈ dom (v_tag_id o)) (v_items o)).
Proof.
  destruct run_without_prefix as (s' & o & Hy & Hi & Hp & Ht & _ & Hcat & _).
  exists s', o. split; [exact Hy|]. rewrite Hi, Ht, Hcat.
  repeat split; try assumption; vm_compute; congruence.
Qed.

(** The record of the example is skipped by a client that lacks its prefix. *)
Lemma unregistered_prefix_skipped_witness :
  link_body (Store := unit) ∅ {[ "Google Cloud" := 1 ]} {[ "US" := 2 ]}
    item_8888 ([], []) (new_crawler sample_reference tt)
  = Ok (([], []), new_crawler sample_reference tt).
Proof.
  destruct run_without_prefix as (s' & o & Hy & Hi & Hp & Ht & Hc & _).
  destruct (unregistered_prefix_skipped (IYP0 := canned_iyp replies_without_prefix)
              date_fromisoformat cloud_json (new_crawler sample_reference tt))
    as [_ H].
  destruct (H s' o Hy) as (Hbody & _).
  rewrite Hi, Hp, Ht, Hc in Hbody. apply Hbody.
  - apply list_elem_of_here.
  - rewrite dom_empty_L. apply not_elem_of_empty.
Defined.

(** The record of the example resolves to US. *)
Lemma known_scope_country_witness :
  ∃ s' o,
    run_yields date_fromisoformat cloud_json
      (new_crawler sample_reference empty_graph) s' o
    ∧ "US" ∈ v_countries o.
Proof.
  destruct (known_scope_country date_fromisoformat cloud_json
              (new_crawler sample_reference empty_graph))
    as ((s' & o & Hy) & _ & _ & H).
  destruct (H s' o Hy) as [Hr _].
  pose proof (run_yields_facts _ _ _ _ _ Hy) as (Hi & _).
  rewrite items_of_cloud_json in Hi.
  destruct (Hr item_8888 "US") as [Hin _].
  - rewrite Hi. apply list_elem_of_here.
  - compute_eq.
  - exists s', o. split; assumption.
Defined.

(** The record with scope global is logged and gets no COUNTRY link. *)
Lemma unknown_scope_skipped_witness :
  ∃ s' o new_log,
    run_yields date_fromisoformat mixed_json
      (new_crawler sample_reference empty_graph) s' o
    ∧ logged s' = new_log
    ∧ (DEBUG, "Unknown GCP region/scope: global") ∈ new_log.
Proof.
  destruct (unknown_scope_skipped date_fromisoformat mixed_json
              (new_crawler sample_reference empty_graph))
    as ((s' & o & Hy) & _ & H).
  destruct (H s' o Hy) as (new_log & Hlog & Hr & _).
  pose proof (run_yields_facts _ _ _ _ _ Hy) as (Hi & _).
  rewrite items_of_mixed_json in Hi.
  destruct (Hr (mk_Item "2600:1901::/48" "Google Cloud" "global" 6)) as [_ Hdebug].
  - rewrite Hi. apply list_elem_of_lookup. by exists 3%nat.
  - compute_eq.
  - exists s', o, new_log. split; [assumption|]. split; [exact Hlog|].
    apply Hdebug. discriminate.
Defined.

(** The creationTime "yesterday" is rejected and the reference is kept. *)
Lemma malformed_creation_time_witness :
  ∃ s' o new_log,
    run_json date_fromisoformat (Ok (json_ok (json_of_data mixed_json)))
      (new_crawler sample_reference empty_graph) = Ok (tt, s')
    ∧ run_yields date_fromisoformat mixed_json
        (new_crawler sample_reference empty_graph) s' o
    ∧ reference s' = sample_reference
    ∧ reference s' !! "reference_time_modification"
      = sample_reference !! "reference_time_modification"
    ∧ logged s' = new_log
    ∧ (WARNING, "Could not parse creationTime: yesterday") ∈ new_log.
Proof.
  refine (proj2 (malformed_creation_time date_fromisoformat
                   (json_ok (json_of_data mixed_json)) (json_of_data mixed_json)
                   (new_crawler sample_reference empty_graph) "yesterday"
                   _ _ _ _)).
  - simpl. lia.
  - reflexivity.
  - reflexivity.
  - compute_eq.
Defined.

(** C6 as stated fails: a body whose creationTime is the number
    1718000000 has the key, and the value cannot be parsed as a
    timestamp; the parser raises TypeError, which the handler for
    ValueError does not catch, so the run stops there: no warning is
    logged and nothing is handed to the client. *)
Lemma malformed_creation_time_counterexample :
  json_creationTime numeric_time_body = Some (JNotString "1718000000")
  ∧ parse_creation_time_json date_fromisoformat numeric_time_body
      (new_crawler sample_reference empty_graph)
    = Raise (TypeError "fromisoformat: argument must be str")
  ∧ run_json date_fromisoformat (Ok (json_ok numeric_time_body))
      (new_crawler sample_reference empty_graph)
    = Raise (TypeError "fromisoformat: argument must be str")
  ∧ ∀ s', run_json date_fromisoformat (Ok (json_ok numeric_time_body))
            (new_crawler sample_reference empty_graph) ≠ Ok (tt, s').
Proof.
  assert (run_json date_fromisoformat (Ok (json_ok numeric_time_body))
            (new_crawler sample_reference empty_graph)
          = Raise (TypeError "fromisoformat: argument must be str")) as Hrun
    by (by apply (run_json_not_string _ _ "1718000000")).
  split; [reflexivity|].
  split; [by apply (parse_creation_time_json_not_string _ _ "1718000000")|].
  split; [exact Hrun|]. intros s'. rewrite Hrun. discriminate.
Qed.

(** The example run twice on the graph store. *)
Lemma rerun_idempotent_witness :
  ∃ s1 o1 s2 o2,
    run_yields date_fromisoformat cloud_json
      (new_crawler sample_reference empty_graph) s1 o1
    ∧ run_yields date_fromisoformat cloud_json s1 s2 o2
    ∧ iyp s2 = iyp s1.
Proof.
  destruct (rerun_idempotent date_fromisoformat cloud_json
              (new_crawler sample_reference empty_graph))
    as (s1 & o1 & Hy1 & H).
  destruct (H s1 eq_refl) as (s2 & o2 & Hy2 & _ & _ & _ & _ & _ & _ & Hsame).
  exists s1, o1, s2, o2. split; [assumption|]. split; [assumption|].
  apply Hsame.
  pose proof (run_yields_facts _ _ _ _ _ Hy2) as (_ & _ & _ & _ & Href & _).
  exact Href.
Defined.

(** The country submitted for the example is a value of the table. *)
Lemma submitted_keys_unique_witness :
  ∃ region, REGION_TO_COUNTRY !! region = Some "US".
Proof.
  destruct (submitted_keys_unique date_fromisoformat cloud_json
              (new_crawler sample_reference empty_graph))
    as (s' & o & Hy & _ & _ & _ & _ & _ & _ & _ & Himg).
  destruct (example_locals date_fromisoformat
              (new_crawler sample_reference empty_graph))
    as (s'' & o' & Hy' & _ & _ & _ & _ & HC & _).
  destruct (run_yields_inj _ _ _ _ _ _ _ Hy Hy') as [_ ->].
  apply Himg. rewrite HC. by apply elem_of_singleton.
Defined.


(** ** Beyond the claims: failure modes and extraction *)

Section more_run.
Context {Store : Type} `{!IYP Store}.
Variable fromisoformat : string → option datetime.
Implicit Types (s : Crawler Store) (o : Locals) (data : Data).

(** X1: How the run ends before the body is processed, given what
    requests.get did.  An exception of requests.get leaves the method; a
    response with a status from 400 to 599 raises HTTPError with that
    code, whatever the body; otherwise a body that does not decode raises
    the JSON decode error (a ValueError, raised outside the try block);
    otherwise a creationTime that is not a string raises TypeError; and a
    body of the documented shape is processed to the end by a client
    whose calls return. *)
Theorem run_failure_modes (got : Res JsonResponse) s :
  (∀ e, got = Raise e → run_json fromisoformat got s = Raise e)
  ∧ (∀ resp, got = Ok resp →
       400 ≤ json_status_code resp < 600 →
       run_json fromisoformat got s = Raise (HTTPError (json_status_code resp)))
  ∧ (∀ resp, got = Ok resp →
       ¬ 400 ≤ json_status_code resp < 600 →
       json_body resp = None →
       run_json fromisoformat got s = Raise JSONDecodeError
       ∧ is_ValueError JSONDecodeError = true)
  ∧ (∀ resp body text, got = Ok resp →
       ¬ 400 ≤ json_status_code resp < 600 →
       json_body resp = Some body →
       json_creationTime body = Some (JNotString text) →
       run_json fromisoformat got s
       = Raise (TypeError "fromisoformat: argument must be str"))
  ∧ (∀ resp data, got = Ok resp →
       ¬ 400 ≤ json_status_code resp < 600 →
       json_body resp = Some (json_of_data data) →
       ∃ s' o, run_json fromisoformat got s = Ok (tt, s')
               ∧ run_yields fromisoformat data s s' o).
Proof.
  split; [|split; [|split; [|split]]].
  - intros e ->. apply run_json_no_response.
  - intros resp -> Hst. by rewrite run_json_response, bool_decide_eq_true_2.
  - intros resp -> Hst Hj.
    by rewrite run_json_response, bool_decide_eq_false_2, Hj.
  - intros resp body text -> Hst Hj Hv.
    rewrite run_json_response, bool_decide_eq_false_2, Hj by assumption.
    by apply (run_json_not_string _ _ text).
  - intros resp data -> Hst Hj.
    rewrite run_json_response, bool_decide_eq_false_2, Hj by assumption.
    destruct (run_spec fromisoformat data s) as (s' & o & Hy & _).
    exists s', o. split; [|exact Hy].
    etrans; [apply run_json_typed_ok|]. apply Hy.
Qed.

(** X2: A body without a prefixes key is processed like one whose list is
    empty: nothing is extracted, the three get-or-create calls are made
    with empty sets, and two empty link lists are handed over. *)
Theorem missing_prefixes_as_empty ct s :
  run fromisoformat (http_ok (mk_Data ct None)) s
  = run fromisoformat (http_ok (mk_Data ct (Some []))) s
  ∧ ∃ s' o,
      run_yields fromisoformat (mk_Data ct None) s s' o
      ∧ v_items o = []
      ∧ v_prefixes o = ∅ ∧ v_services o = ∅ ∧ v_countries o = ∅
      ∧ v_categorized_links o = [] ∧ v_country_links o = [].
Proof.
  split.
  - reflexivity.
  - destruct (run_spec fromisoformat (mk_Data ct None) s) as (s' & o & Hy & Hf).
    destruct Hf as (Hi & HP & HS & HC & _ & Hcat & Hctry & _).
    change (items_of (mk_Data ct None)) with (@nil Item) in Hi.
    rewrite Hi in *. exists s', o. split; [exact Hy|].
    repeat split; assumption.
Qed.

End more_run.

Section more_extraction.
Context {Store : Type}.
Implicit Types (s : Crawler Store) (item : Entry).

Lemma emitted_length item :
  length (emitted item)
  = (length (filter (λ e : Entry, is_Some (e !! "ipv4Prefix")) [item])
     + length (filter (λ e : Entry, is_Some (e !! "ipv6Prefix")) [item]))%nat.
Proof.
  unfold emitted. rewrite !filter_cons, !filter_nil.
  destruct (item !! "ipv4Prefix"), (item !! "ipv6Prefix");
    repeat case_decide; simpl; try reflexivity;
    exfalso; match goal with
             | H : ¬ is_Some (Some _) |- _ => apply H; eauto
             | H : is_Some None |- _ => destruct H; discriminate
             end.
Qed.

Lemma elem_of_family_records (found : option string) (sv sc : string) (a : Z)
    (r : Item) :
  r ∈ match found with
      | Some p => [ mk_Item p sv sc a ]
      | None => []
      end
  ↔ found = Some (prefix r) ∧ service r = sv ∧ scope r = sc ∧ af r = a.
Proof.
  destruct found, r; simpl;
    rewrite ?list_elem_of_singleton, ?elem_of_nil; naive_solver.
Qed.

(** X3: The number of extracted records is the number of entries with an
    ipv4Prefix key plus the number of entries with an ipv6Prefix key, hence
    at most twice the number of entries; an entry with neither key is
    dropped without a record and without an error. *)
Theorem extraction_count ct (es : list Entry) s :
  ∃ items,
    parse_prefixes (mk_Data ct (Some es)) s = Ok (items, s)
    ∧ length items
      = (length (filter (λ e : Entry, is_Some (e !! "ipv4Prefix")) es)
         + length (filter (λ e : Entry, is_Some (e !! "ipv6Prefix")) es))%nat
    ∧ (length items ≤ 2 * length es)%nat
    ∧ ∀ item items0,
        item !! "ipv4Prefix" = None → item !! "ipv6Prefix" = None →
        parse_body item items0 s = Ok (items0, s).
Proof.
  exists (es ≫= emitted). split; [by rewrite parse_prefixes_spec|].
  assert (length (es ≫= emitted)
          = (length (filter (λ e : Entry, is_Some (e !! "ipv4Prefix")) es)
             + length (filter (λ e : Entry, is_Some (e !! "ipv6Prefix")) es))%nat)
    as Hlen.
  { induction es as [|e es IH]; [reflexivity|].
    rewrite bind_cons, length_app, IH, emitted_length.
    rewrite !(filter_cons _ e es), !(filter_cons _ e []), !filter_nil.
    repeat case_decide; simpl; lia. }
  split; [exact Hlen|]. split.
  - rewrite Hlen.
    pose proof (length_filter (λ e : Entry, is_Some (e !! "ipv4Prefix")) es).
    pose proof (length_filter (λ e : Entry, is_Some (e !! "ipv6Prefix")) es).
    lia.
  - intros item items0 H4 H6. rewrite parse_body_spec. unfold emitted.
    rewrite H4, H6. simpl. by rewrite app_nil_r.
Qed.

(** X4: The extraction is sound and complete: a record is extracted exactly
    when some entry holds its prefix under ipv4Prefix (and the record has
    family 4) or under ipv6Prefix (family 6), and the record carries that
    entry's service and scope, or the defaults.  In particular the family
    of a record is 4 or 6. *)
Theorem extraction_sound_complete ct (es : list Entry) s :
  ∃ items,
    parse_prefixes (mk_Data ct (Some es)) s = Ok (items, s)
    ∧ (∀ r, r ∈ items
            ↔ ∃ item, item ∈ es
                ∧ (item !! "ipv4Prefix" = Some (prefix r) ∧ af r = 4
                   ∨ item !! "ipv6Prefix" = Some (prefix r) ∧ af r = 6)
                ∧ service r = dict_get item "service" "Google Cloud"
                ∧ scope r = dict_get item "scope" EmptyString)
    ∧ ∀ r, r ∈ items → af r = 4 ∨ af r = 6.
Proof.
  exists (es ≫= emitted). split; [by rewrite parse_prefixes_spec|].
  assert (∀ r item, r ∈ emitted item
            ↔ (item !! "ipv4Prefix" = Some (prefix r) ∧ af r = 4
               ∨ item !! "ipv6Prefix" = Some (prefix r) ∧ af r = 6)
              ∧ service r = dict_get item "service" "Google Cloud"
              ∧ scope r = dict_get item "scope" EmptyString) as Hone.
  { intros r item. unfold emitted.
    rewrite elem_of_app, !elem_of_family_records. tauto. }
  split.
  - intros r. rewrite list_elem_of_bind. split.
    + intros (item & Hr & Hitem). exists item. split; [done|]. by apply Hone.
    + intros (item & Hitem & H). exists item. split; [by apply Hone|done].
  - intros r (item & Hr & _)%list_elem_of_bind.
    apply Hone in Hr as ([[_ ?]|[_ ?]] & _); auto.
Qed.

End more_extraction.

(** ** Beyond the claims: the reference and the links *)

Lemma size_list_to_set_le (l : list string) :
  (size (list_to_set l : gset string) ≤ length l)%nat.
Proof.
  induction l as [|x l IH].
  - rewrite list_to_set_nil, size_empty. reflexivity.
  - rewrite list_to_set_cons, size_union_alt, size_singleton. cbn [length].
    apply le_n_S. etrans; [|exact IH].
    apply subseteq_size, subseteq_difference_l. reflexivity.
Qed.

Lemma length_omap_le {A B} (f : A → option B) (l : list A) :
  (length (omap f l) ≤ length l)%nat.
Proof.
  induction l as [|x l IH]; csimpl; [lia|]. destruct (f x); csimpl; lia.
Qed.

Lemma country_link_of_length prefix_id country_id ref (items : list Item) :
  length (items ≫= country_link_of prefix_id country_id ref)
  = length (filter (λ r, is_Some (prefix_id !! prefix r)
                         ∧ is_Some (REGION_TO_COUNTRY !! scope r
                                      ≫= (λ cc, country_id !! cc))) items).
Proof.
  induction items as [|r items IH]; [reflexivity|].
  rewrite bind_cons, length_app, IH, filter_cons.
  unfold country_link_of at 1.
  destruct (decide (is_Some (prefix_id !! prefix r)
                    ∧ is_Some (REGION_TO_COUNTRY !! scope r
                                 ≫= (λ cc, country_id !! cc)))) as [Hd|Hd].
  - destruct Hd as [[p Ep] [c Ec]]. rewrite Ep.
    destruct (REGION_TO_COUNTRY !! scope r) as [cc|]; [|discriminate].
    simpl in Ec. rewrite Ec. reflexivity.
  - destruct (prefix_id !! prefix r) as [p|] eqn:Ep; [|reflexivity].
    destruct (REGION_TO_COUNTRY !! scope r) as [cc|]; [|reflexivity].
    destruct (country_id !! cc) as [c|] eqn:Ec; [|reflexivity].
    exfalso. apply Hd. split; [eauto|]. simpl. rewrite Ec. eauto.
Qed.

Section more_links.
Context {Store : Type} `{!IYP Store}.
Variable fromisoformat : string → option datetime.
Implicit Types (s : Crawler Store) (o : Locals) (data : Data).

(** X5: The address family of a record is not used after extraction: records
    that agree on prefix, service and scope yield the same three sets, the
    same log records and the same links, whatever their families. *)
Theorem family_not_used (items items' : list Item)
    (prefix_id tag_id country_id : gmap string Z) s :
  Forall2 (λ r r', prefix r = prefix r' ∧ service r = service r'
                   ∧ scope r = scope r') items items' →
  collect_unique items s = collect_unique items' s
  ∧ prepare_relationships prefix_id tag_id country_id items s
    = prepare_relationships prefix_id tag_id country_id items' s.
Proof.
  intros Hsame. rewrite !collect_unique_spec, !prepare_relationships_spec.
  assert (prefix <$> items = prefix <$> items') as HP.
  { clear -Hsame. induction Hsame as [|r r' l l' (Hp & _) _ IH]; [done|].
    rewrite !fmap_cons, Hp, IH. done. }
  assert (service <$> items = service <$> items') as HS.
  { clear -Hsame. induction Hsame as [|r r' l l' (_ & Hs & _) _ IH]; [done|].
    rewrite !fmap_cons, Hs, IH. done. }
  assert (omap country_of_scope items = omap country_of_scope items') as HC.
  { clear -Hsame. induction Hsame as [|r r' l l' (_ & _ & Hc) _ IH]; [reflexivity|].
    csimpl. rewrite IH. unfold country_of_scope. by rewrite Hc. }
  assert (items ≫= unknown_scope_log = items' ≫= unknown_scope_log) as HL.
  { clear -Hsame. induction Hsame as [|r r' l l' (_ & _ & Hc) _ IH]; [reflexivity|].
    rewrite !bind_cons, IH. unfold unknown_scope_log. rewrite Hc. reflexivity. }
  assert (∀ ref, items ≫= categorized_of prefix_id tag_id ref
                 = items' ≫= categorized_of prefix_id tag_id ref) as Hcat.
  { clear -Hsame. intros ref. induction Hsame as [|r r' l l' (Hp & Hs & _) _ IH]; [reflexivity|].
    rewrite !bind_cons, IH. unfold categorized_of. rewrite Hp, Hs. reflexivity. }
  assert (∀ ref, items ≫= country_link_of prefix_id country_id ref
                 = items' ≫= country_link_of prefix_id country_id ref) as Hctry.
  { clear -Hsame. intros ref. induction Hsame as [|r r' l l' (Hp & _ & Hc) _ IH]; [reflexivity|].
    rewrite !bind_cons, IH. unfold country_link_of. rewrite Hp, Hc. reflexivity. }
  unfold prefix_set, service_set, country_set.
  rewrite HP, HS, HC, HL, Hcat, Hctry. split; reflexivity.
Qed.

(** X6: The only key of the reference a run can change is
    reference_time_modification: every other key, reference_url_info
    included, reads after the run as it did before. *)
Theorem run_reference_frame data s :
  (∃ s' o, run_yields fromisoformat data s s' o)
  ∧ ∀ s' o, run_yields fromisoformat data s s' o →
      ∀ k, k ≠ "reference_time_modification" →
           reference s' !! k = reference s !! k.
Proof.
  split; [apply run_total|]. intros s' o Hy k Hk.
  pose proof (run_yields_facts _ _ _ _ _ Hy) as (_ & _ & _ & _ & Href & _).
  rewrite Href. unfold stamped.
  destruct (creationTime data) as [t|]; [|reflexivity].
  destruct (fromisoformat t); [|reflexivity].
  by rewrite lookup_insert_ne.
Qed.

(** X7: When creationTime is present and parses, the run stores it under
    reference_time_modification with the time zone set to UTC and the
    wall-clock fields as parsed: a time read with another offset is
    relabelled, not converted.  No warning is logged. *)
Theorem creation_time_recorded data s t dt :
  creationTime data = Some t →
  fromisoformat t = Some dt →
  ∃ s' o stamp new_log,
    run_yields fromisoformat data s s' o
    ∧ reference s' !! "reference_time_modification" = Some (PTime stamp)
    ∧ tzinfo stamp = Some 0
    ∧ year stamp = year dt ∧ month stamp = month dt ∧ day stamp = day dt
    ∧ hour stamp = hour dt ∧ minute stamp = minute dt
    ∧ second stamp = second dt ∧ microsecond stamp = microsecond dt
    ∧ logged s' = logged s ++ new_log
    ∧ ∀ msg, (WARNING, msg) ∉ new_log.
Proof.
  intros Ht Hdt.
  destruct (run_spec fromisoformat data s) as (s' & o & Hy & Hf).
  destruct Hf as (_ & _ & _ & _ & Href & _ & _ & Hlog & _).
  unfold stamped in Href. rewrite Ht, Hdt in Href.
  exists s', o, (replace_tzinfo dt timezone_utc). eexists.
  split; [exact Hy|]. split; [by rewrite Href, lookup_insert_eq|].
  do 8 (split; [reflexivity|]). split; [exact Hlog|].
  intros msg. unfold run_log, stamp_log. rewrite Ht, Hdt.
  rewrite !elem_of_app, list_elem_of_bind, !elem_of_cons, !elem_of_nil.
  intros [[H|[]]|[[]|[[H|[]]|[(r & H & _)|H]]]]; try discriminate.
  - apply elem_of_unknown_scope_log in H as (_ & _ & H). discriminate.
  - destruct H as [H|[H|[H|[H|[]]]]]; discriminate.
Qed.


(** X9: Every link handed to the client carries exactly one property
    dictionary, the crawler's reference as it stands at the end of the run,
    so with the modification time when creationTime parsed. *)
Theorem links_carry_reference data s :
  ∃ s' o,
    run_yields fromisoformat data s s' o
    ∧ ∀ l, l ∈ v_categorized_links o ++ v_country_links o →
           props l = [reference s'].
Proof.
  destruct (run_spec fromisoformat data s) as (s' & o & Hy & Hf).
  destruct Hf as (_ & _ & _ & _ & _ & Hcat & Hctry & _).
  exists s', o. split; [exact Hy|].
  intros l. rewrite Hcat, Hctry, elem_of_app, !list_elem_of_bind.
  intros [(r & Hl & _)|(r & Hl & _)].
  - by apply elem_of_categorized_of in Hl as (p & t & _ & _ & ->).
  - by apply elem_of_country_link_of in Hl as (p & cc & c & _ & _ & _ & ->).
Qed.

(** X10: Every link starts at an id of the prefix_id reply, which is an id the
    run labelled Prefix, and ends at an id of the tag_id reply (CATEGORIZED)
    or of the country_id reply (COUNTRY): no id is made up. *)
Theorem link_endpoints_from_replies data s :
  ∃ s' o,
    run_yields fromisoformat data s s' o
    ∧ (∀ l, l ∈ v_categorized_links o →
            src_id l ∈ dict_values (v_prefix_id o)
            ∧ dst_id l ∈ dict_values (v_tag_id o))
    ∧ (∀ l, l ∈ v_country_links o →
            src_id l ∈ dict_values (v_prefix_id o)
            ∧ dst_id l ∈ dict_values (v_country_id o)).
Proof.
  destruct (run_spec fromisoformat data s) as (s' & o & Hy & Hf).
  destruct Hf as (_ & _ & _ & _ & _ & Hcat & Hctry & _).
  assert (∀ (m : gmap string Z) k i, m !! k = Some i → i ∈ dict_values m) as Hval.
  { intros m k i Hk. unfold dict_values. apply list_elem_of_fmap.
    exists (k, i). split; [done|]. by apply elem_of_map_to_list. }
  exists s', o. split; [exact Hy|]. split.
  - intros l. rewrite Hcat, list_elem_of_bind. intros (r & Hl & _).
    apply elem_of_categorized_of in Hl as (p & t & Hp & Ht & ->). simpl. eauto.
  - intros l. rewrite Hctry, list_elem_of_bind. intros (r & Hl & _).
    apply elem_of_country_link_of in Hl as (p & cc & c & Hp & _ & Hc & ->).
    simpl. eauto.
Qed.

(** X11: The number of COUNTRY links handed to the client is at most the
    number of records and equals the number of records whose prefix is in
    the prefix_id reply, whose scope is in the table, and whose country is
    in the country_id reply. *)
Theorem country_count data s :
  ∃ s' o,
    run_yields fromisoformat data s s' o
    ∧ (length (v_country_links o) ≤ length (v_items o))%nat
    ∧ length (v_country_links o)
      = length (filter (λ r, is_Some (v_prefix_id o !! prefix r)
                             ∧ is_Some (REGION_TO_COUNTRY !! scope r
                                          ≫= (λ cc, v_country_id o !! cc)))
                       (v_items o)).
Proof.
  destruct (run_spec fromisoformat data s) as (s' & o & Hy & Hf).
  destruct Hf as (_ & _ & _ & _ & _ & _ & Hctry & _).
  exists s', o. split; [exact Hy|].
  rewrite Hctry, country_link_of_length. split; [apply length_filter|reflexivity].
Qed.

(** X12: The relationship loop works record by record: the links of a
    concatenation are the concatenation of the links, in order.  Edges are
    therefore not de-duplicated: a record that occurs twice yields its
    links twice. *)
Theorem relationships_app (prefix_id tag_id country_id : gmap string Z)
    (xs ys : list Item) s :
  ∃ cx kx cy ky,
    prepare_relationships prefix_id tag_id country_id xs s = Ok ((cx, kx), s)
    ∧ prepare_relationships prefix_id tag_id country_id ys s = Ok ((cy, ky), s)
    ∧ prepare_relationships prefix_id tag_id country_id (xs ++ ys) s
      = Ok ((cx ++ cy, kx ++ ky), s)
    ∧ prepare_relationships prefix_id tag_id country_id (xs ++ xs) s
      = Ok ((cx ++ cx, kx ++ kx), s).
Proof.
  do 4 eexists. rewrite !prepare_relationships_spec, !bind_app.
  repeat split; reflexivity.
Qed.

End more_links.

(** ** Beyond the claims: complete replies, order, sizes, the table *)

Lemma categorized_of_all prefix_id tag_id ref (items : list Item) :
  (∀ r, r ∈ items → is_Some (prefix_id !! prefix r)
                    ∧ is_Some (tag_id !! service r)) →
  length (items ≫= categorized_of prefix_id tag_id ref) = length items.
Proof.
  induction items as [|r items IH]; intros Hall; [reflexivity|].
  rewrite bind_cons, length_app, IH
    by (intros r' Hr'; apply Hall; by apply list_elem_of_further).
  destruct (Hall r) as [[p Hp] [t Ht]]; [apply list_elem_of_here|].
  unfold categorized_of. rewrite Hp, Ht. reflexivity.
Qed.

Lemma country_link_of_all prefix_id country_id ref (items : list Item) :
  (∀ r, r ∈ items → is_Some (prefix_id !! prefix r)) →
  (∀ r cc, r ∈ items → REGION_TO_COUNTRY !! scope r = Some cc →
           is_Some (country_id !! cc)) →
  length (items ≫= country_link_of prefix_id country_id ref)
  = length (filter (λ r, is_Some (REGION_TO_COUNTRY !! scope r)) items).
Proof.
  induction items as [|r items IH]; intros Hp Hc; [reflexivity|].
  rewrite bind_cons, length_app, filter_cons, IH;
    [|intros r' Hr'; apply Hp; by apply list_elem_of_further
     |intros r' cc Hr'; apply Hc; by apply list_elem_of_further].
  destruct (Hp r) as [p Ep]; [apply list_elem_of_here|].
  unfold country_link_of. rewrite Ep.
  destruct (REGION_TO_COUNTRY !! scope r) as [cc|] eqn:Ecc.
  - destruct (Hc r cc) as [c Ec]; [apply list_elem_of_here|exact Ecc|].
    rewrite Ec, decide_True by eauto. reflexivity.
  - rewrite decide_False by (intros [? ?]; discriminate). reflexivity.
Qed.

Lemma region_table_lookup k v :
  REGION_TO_COUNTRY !! k = Some v → (k, v) ∈ REGION_TO_COUNTRY_items.
Proof.
  change REGION_TO_COUNTRY
    with (list_to_map REGION_TO_COUNTRY_items : gmap string string).
  apply elem_of_list_to_map_2.
Qed.

Section more_sets.
Context {Store : Type} `{!IYP Store}.
Variable fromisoformat : string → option datetime.
Implicit Types (s : Crawler Store) (o : Locals) (data : Data).

(** X13: When the client answers with an id for every key it was sent, no
    record is skipped: every record gets exactly one CATEGORIZED link, and
    every record with a known scope exactly one COUNTRY link. *)
Theorem complete_replies_link_every_record data s :
  (∃ s' o, run_yields fromisoformat data s s' o)
  ∧ ∀ s' o, run_yields fromisoformat data s s' o →
      v_prefixes o ⊆ dom (v_prefix_id o) →
      v_services o ⊆ dom (v_tag_id o) →
      v_countries o ⊆ dom (v_country_id o) →
      length (v_categorized_links o) = length (v_items o)
      ∧ length (v_country_links o)
        = length (filter (λ r, is_Some (REGION_TO_COUNTRY !! scope r))
                         (v_items o)).
Proof.
  split; [apply run_total|]. intros s' o Hy HP HS HC.
  pose proof (run_yields_facts _ _ _ _ _ Hy)
    as (_ & EP & ES & EC & _ & Hcat & Hctry & _).
  rewrite EP in HP. rewrite ES in HS. rewrite EC in HC.
  assert (∀ r, r ∈ v_items o → is_Some (v_prefix_id o !! prefix r)) as Hp.
  { intros r Hr. apply elem_of_dom, HP, elem_of_prefix_set. eauto. }
  split.
  - rewrite Hcat. apply categorized_of_all. intros r Hr. split; [by apply Hp|].
    apply elem_of_dom, HS, elem_of_service_set. eauto.
  - rewrite Hctry. apply country_link_of_all; [exact Hp|].
    intros r cc Hr Hcc. apply elem_of_dom, HC, elem_of_country_set. eauto.
Qed.

(** X14: The order of the entries in the feed does not matter for what
    is extracted and submitted: two feeds that are permutations of each
    other yield the same records up to order and three sets with the same
    elements; and for any replies the link loop is given, the two link
    lists it builds from the two record lists are the same up to order.
    (What a client answers to the two submitted sets is its own
    matter.) *)
Theorem entry_order_irrelevant ct (es es' : list Entry) s :
  es ≡ₚ es' →
  ∃ s1 o1 s2 o2,
    run_yields fromisoformat (mk_Data ct (Some es)) s s1 o1
    ∧ run_yields fromisoformat (mk_Data ct (Some es')) s s2 o2
    ∧ v_items o1 ≡ₚ v_items o2
    ∧ (∀ x, x ∈ v_prefixes o1 ↔ x ∈ v_prefixes o2)
    ∧ (∀ x, x ∈ v_services o1 ↔ x ∈ v_services o2)
    ∧ (∀ x, x ∈ v_countries o1 ↔ x ∈ v_countries o2)
    ∧ ∀ prefix_id tag_id country_id (s0 : Crawler Store),
        ∃ cat1 ctry1 cat2 ctry2,
          prepare_relationships prefix_id tag_id country_id (v_items o1) s0
          = Ok ((cat1, ctry1), s0)
          ∧ prepare_relationships prefix_id tag_id country_id (v_items o2) s0
            = Ok ((cat2, ctry2), s0)
          ∧ cat1 ≡ₚ cat2
          ∧ ctry1 ≡ₚ ctry2.
Proof.
  intros Hperm.
  destruct (run_spec fromisoformat (mk_Data ct (Some es)) s)
    as (s1 & o1 & Hy1 & Hf1).
  destruct (run_spec fromisoformat (mk_Data ct (Some es')) s)
    as (s2 & o2 & Hy2 & Hf2).
  exists s1, o1, s2, o2. split; [exact Hy1|]. split; [exact Hy2|].
  destruct Hf1 as (Hi1 & HP1 & HS1 & HC1 & _).
  destruct Hf2 as (Hi2 & HP2 & HS2 & HC2 & _).
  assert (v_items o1 ≡ₚ v_items o2) as Hitems.
  { rewrite Hi1, Hi2. unfold items_of. cbn [prefixes default from_option id].
    by rewrite Hperm. }
  split; [exact Hitems|].
  split.
  { intros x. rewrite HP1, HP2, !elem_of_prefix_set.
    split; intros (r & Hr & Hx); exists r; (split; [|exact Hx]);
      [by rewrite <- Hitems|by rewrite Hitems]. }
  split.
  { intros x. rewrite HS1, HS2, !elem_of_service_set.
    split; intros (r & Hr & Hx); exists r; (split; [|exact Hx]);
      [by rewrite <- Hitems|by rewrite Hitems]. }
  split.
  { intros x. rewrite HC1, HC2, !elem_of_country_set.
    split; intros (r & Hr & Hx); exists r; (split; [|exact Hx]);
      [by rewrite <- Hitems|by rewrite Hitems]. }
  intros prefix_id tag_id country_id s0.
  exists (v_items o1 ≫= categorized_of prefix_id tag_id (reference s0)),
         (v_items o1 ≫= country_link_of prefix_id country_id (reference s0)),
         (v_items o2 ≫= categorized_of prefix_id tag_id (reference s0)),
         (v_items o2 ≫= country_link_of prefix_id country_id (reference s0)).
  rewrite !prepare_relationships_spec.
  split; [reflexivity|]. split; [reflexivity|].
  clear -Hitems. split; by rewrite Hitems.
Qed.

(** X15: The sets submitted for nodes are no larger than the list of records,
    and the set of countries never exceeds the 28 country codes of the
    table, however long the feed is. *)
Theorem submitted_set_sizes data s :
  ∃ s' o,
    run_yields fromisoformat data s s' o
    ∧ (size (v_prefixes o) ≤ length (v_items o))%nat
    ∧ (size (v_services o) ≤ length (v_items o))%nat
    ∧ (size (v_countries o) ≤ length (v_items o))%nat
    ∧ v_countries o ⊆ country_codes
    ∧ size country_codes = 28%nat
    ∧ (size (v_countries o) ≤ 28)%nat.
Proof.
  destruct (run_spec fromisoformat data s) as (s' & o & Hy & Hf).
  destruct Hf as (_ & HP & HS & HC & _).
  exists s', o. split; [exact Hy|].
  assert (v_countries o ⊆ country_codes) as Hsub.
  { intros cc. rewrite HC, elem_of_country_set. intros (r & _ & Hcc).
    apply region_table_lookup in Hcc. unfold country_codes.
    apply elem_of_list_to_set, list_elem_of_fmap. by exists (scope r, cc). }
  assert (size country_codes = 28%nat) as H28 by compute_eq.
  split; [|split; [|split; [|split; [exact Hsub|split; [exact H28|]]]]].
  - rewrite HP. unfold prefix_set.
    etrans; [apply size_list_to_set_le|]. by rewrite length_fmap.
  - rewrite HS. unfold service_set.
    etrans; [apply size_list_to_set_le|]. by rewrite length_fmap.
  - rewrite HC. unfold country_set.
    etrans; [apply size_list_to_set_le|]. apply length_omap_le.
  - rewrite <- H28. by apply subseteq_size.
Qed.

End more_sets.

(** X16: The dictionary literal has no repeated key, so no pair of it is
    shadowed: a lookup in REGION_TO_COUNTRY succeeds exactly on the 42
    listed pairs; and every country code in it is two upper-case letters. *)
Theorem region_table_literal :
  NoDup (REGION_TO_COUNTRY_items.*1)
  ∧ size REGION_TO_COUNTRY = 42%nat
  ∧ (∀ k v, REGION_TO_COUNTRY !! k = Some v ↔ (k, v) ∈ REGION_TO_COUNTRY_items)
  ∧ (∀ k v, REGION_TO_COUNTRY !! k = Some v → is_alpha2 v = true).
Proof.
  assert (NoDup (REGION_TO_COUNTRY_items.*1)) as Hnodup.
  { apply (bool_decide_unpack _). vm_compute. exact I. }
  assert (Forall (λ kv : string * string, is_alpha2 kv.2 = true)
                 REGION_TO_COUNTRY_items) as Hcodes.
  { apply (bool_decide_unpack _). vm_compute. exact I. }
  split; [exact Hnodup|]. split; [compute_eq|]. split.
  - intros k v. split; [apply region_table_lookup|].
    change REGION_TO_COUNTRY
      with (list_to_map REGION_TO_COUNTRY_items : gmap string string).
    by apply elem_of_list_to_map_1.
  - intros k v Hk%region_table_lookup.
    rewrite Forall_forall in Hcodes. exact (Hcodes (k, v) Hk).
Qed.

Section more_init.
Context {Store : Type} `{!IYP Store}.
Variable fromisoformat : string → option datetime.
Variable base_init : string → string → string → M Store unit.
Implicit Types (s : Crawler Store) (o : Locals) (data : Data).

(** X17: The constructor passes on a failure of the base constructor;
    otherwise it overwrites reference_url_info with the documentation URL
    of the feed and leaves the rest of the object as the base constructor
    made it.  A run started from there keeps that URL, and every link it
    hands over carries it. *)
Theorem init_then_run organization url name s :
  (∀ e, base_init organization url name s = Raise e →
        Crawler_init base_init organization url name s = Raise e)
  ∧ ∀ s0, base_init organization url name s = Ok (tt, s0) →
      ∃ s1,
        Crawler_init base_init organization url name s = Ok (tt, s1)
        ∧ reference s1
          = <["reference_url_info" :=
                PStr "https://cloud.google.com/compute/docs/faq#find_ip_range"]>
              (reference s0)
        ∧ iyp s1 = iyp s0 ∧ logged s1 = logged s0 ∧ calls s1 = calls s0
        ∧ ∀ data, ∃ s' o,
            run_yields fromisoformat data s1 s' o
            ∧ reference s' !! "reference_url_info"
              = Some (PStr "https://cloud.google.com/compute/docs/faq#find_ip_range")
            ∧ ∀ l, l ∈ v_categorized_links o ++ v_country_links o →
                ∃ ref, props l = [ref]
                       ∧ ref !! "reference_url_info"
                         = Some (PStr "https://cloud.google.com/compute/docs/faq#find_ip_range").
Proof.
  split.
  - intros e He. unfold Crawler_init, bind. by rewrite He.
  - intros s0 H0. eexists. unfold Crawler_init, bind. rewrite H0.
    split; [reflexivity|]. cbn [reference iyp logged calls].
    do 4 (split; [reflexivity|]). intros data.
    match goal with |- context [run_yields _ _ ?st _ _] => set (s1 := st) end.
    destruct (run_spec fromisoformat data s1) as (s' & o & Hy & Hf).
    destruct Hf as (_ & _ & _ & _ & Href & Hcat & Hctry & _).
    assert (reference s' !! "reference_url_info"
            = Some (PStr "https://cloud.google.com/compute/docs/faq#find_ip_range"))
      as Hurl.
    { rewrite Href. unfold stamped.
      destruct (creationTime data) as [t|]; [destruct (fromisoformat t)|];
        rewrite ?lookup_insert_ne by discriminate; apply lookup_insert_eq. }
    exists s', o. split; [exact Hy|]. split; [exact Hurl|].
    intros l. rewrite Hcat, Hctry, elem_of_app, !list_elem_of_bind.
    intros [(r & Hl & _)|(r & Hl & _)]; exists (reference s').
    + apply elem_of_categorized_of in Hl as (p & t & _ & _ & ->). by split.
    + apply elem_of_country_link_of in Hl as (p & cc & c & _ & _ & _ & ->).
      by split.
Qed.

End more_init.

(** ** Instances of the further properties *)

(** The example run against a client that answers for every key. *)
Lemma run_with_complete_replies :
  ∃ s' o,
    run_yields (IYP0 := canned_iyp replies_complete) date_fromisoformat
      cloud_json (new_crawler sample_reference tt) s' o
    ∧ reference s' = sample_reference
    ∧ v_items o = [item_8888]
    ∧ v_prefixes o = {[ "8.8.8.0/24" ]}
    ∧ v_services o = {[ "Google Cloud" ]}
    ∧ v_countries o = {[ "US" ]}
    ∧ v_prefix_id o = {[ "8.8.8.0/24" := 0 ]}
    ∧ v_tag_id o = {[ "Google Cloud" := 1 ]}
    ∧ v_country_id o = {[ "US" := 2 ]}
    ∧ v_categorized_links o = [ mk_Link 0 1 [sample_reference] ]
    ∧ v_country_links o = [ mk_Link 0 2 [sample_reference] ].
Proof.
  destruct (example_locals (IYP0 := canned_iyp replies_complete)
              date_fromisoformat (new_crawler sample_reference tt))
    as (s' & o & Hy & Href & Hi & HP & HS & HC & Hcat & Hctry).
  pose proof (run_yields_facts _ _ _ _ _ Hy)
    as (_ & _ & _ & _ & _ & _ & _ & _ & st1 & st3 & st4 & E1 & E2 & E3 & _).
  cbn [batch_get_nodes_by_single_prop canned_iyp] in E1, E2, E3.
  apply pair_equal_spec in E1 as [E1 _].
  apply pair_equal_spec in E2 as [E2 _].
  apply pair_equal_spec in E3 as [E3 _].
  assert (v_prefix_id o = {[ "8.8.8.0/24" := 0 ]}) as Hp
    by (rewrite <- E1; compute_eq).
  assert (v_tag_id o = {[ "Google Cloud" := 1 ]}) as Ht
    by (rewrite <- E2; compute_eq).
  assert (v_country_id o = {[ "US" := 2 ]}) as Hc
    by (rewrite <- E3; compute_eq).
  rewrite Hp, Ht in Hcat. rewrite Hp, Hc in Hctry.
  rewrite !lookup_singleton_eq in Hcat, Hctry.
  exists s', o. split; [exact Hy|]. repeat split; assumption.
Qed.

(** A 404 response raises HTTPError 404 although its body is fine, and a
    refused connection leaves the method as the exception it is. *)
Lemma run_failure_modes_witness :
  run_json (IYP0 := canned_iyp replies_complete) date_fromisoformat
    (Ok not_found_json_response) (new_crawler sample_reference tt)
  = Raise (HTTPError 404)
  ∧ run_json (IYP0 := canned_iyp replies_complete) date_fromisoformat
      (Raise (RequestException "connection refused"))
      (new_crawler sample_reference tt)
    = Raise (RequestException "connection refused").
Proof.
  split.
  - destruct (run_failure_modes (IYP0 := canned_iyp replies_complete)
                date_fromisoformat (Ok not_found_json_response)
                (new_crawler sample_reference tt)) as (_ & H & _).
    apply (H not_found_json_response); [reflexivity|simpl; lia].
  - destruct (run_failure_modes (IYP0 := canned_iyp replies_complete)
                date_fromisoformat
                (Raise (RequestException "connection refused"))
                (new_crawler sample_reference tt)) as (H & _).
    apply H. reflexivity.
Defined.

(** An entry without a prefix key leaves the record list as it is. *)
Lemma extraction_count_witness :
  parse_body (Store := unit) (<["scope" := "us-east1"]> ∅) [item_8888]
    (new_crawler sample_reference tt)
  = Ok ([item_8888], new_crawler sample_reference tt).
Proof.
  destruct (extraction_count (Store := unit) None [entry_8888]
              (new_crawler sample_reference tt)) as (items & _ & _ & _ & H).
  apply H; compute_eq.
Defined.

(** The IPv4 record of the entry with both families is extracted. *)
Lemma extraction_sound_complete_witness :
  ∃ items,
    parse_prefixes (Store := unit) (mk_Data None (Some [dual_entry; v6_entry]))
      (new_crawler sample_reference tt)
    = Ok (items, new_crawler sample_reference tt)
    ∧ mk_Item "34.80.0.0/15" "Google Cloud" "asia-east1" 4 ∈ items.
Proof.
  destruct (extraction_sound_complete (Store := unit) None [dual_entry; v6_entry]
              (new_crawler sample_reference tt)) as (items & Hp & Hiff & _).
  exists items. split; [exact Hp|]. apply Hiff.
  exists dual_entry. split; [apply list_elem_of_here|].
  split; [left; split; compute_eq|]. split; compute_eq.
Defined.

(** The same prefix tagged as family 4 or as family 6 gives the same sets
    and links. *)
Lemma family_not_used_witness :
  collect_unique (Store := unit) [item_8888] (new_crawler sample_reference tt)
  = collect_unique [mk_Item "8.8.8.0/24" "Google Cloud" "us-central1" 6]
      (new_crawler sample_reference tt)
  ∧ prepare_relationships (Store := unit) {[ "8.8.8.0/24" := 0 ]}
      {[ "Google Cloud" := 1 ]} {[ "US" := 2 ]} [item_8888]
      (new_crawler sample_reference tt)
    = prepare_relationships {[ "8.8.8.0/24" := 0 ]}
        {[ "Google Cloud" := 1 ]} {[ "US" := 2 ]}
        [mk_Item "8.8.8.0/24" "Google Cloud" "us-central1" 6]
        (new_crawler sample_reference tt).
Proof.
  apply (family_not_used (Store := unit)).
  repeat constructor.
Defined.

(** reference_url_info survives a run that sets the modification time. *)
Lemma run_reference_frame_witness :
  ∃ s' o,
    run_yields (IYP0 := canned_iyp replies_complete) date_fromisoformat
      dated_json (new_crawler sample_reference tt) s' o
    ∧ reference s' !! "reference_url_info"
      = sample_reference !! "reference_url_info".
Proof.
  destruct (run_reference_frame (IYP0 := canned_iyp replies_complete)
              date_fromisoformat dated_json (new_crawler sample_reference tt))
    as [(s' & o & Hy) H].
  exists s', o. split; [exact Hy|]. apply (H s' o Hy). discriminate.
Defined.

(** The date 2024-02-29 is stored as midnight of that day, in UTC. *)
Lemma creation_time_recorded_witness :
  ∃ s' o stamp,
    run_yields (IYP0 := canned_iyp replies_complete) date_fromisoformat
      dated_json (new_crawler sample_reference tt) s' o
    ∧ reference s' !! "reference_time_modification" = Some (PTime stamp)
    ∧ tzinfo stamp = Some 0
    ∧ year stamp = 2024 ∧ month stamp = 2 ∧ day stamp = 29.
Proof.
  destruct (creation_time_recorded (IYP0 := canned_iyp replies_complete)
              date_fromisoformat dated_json (new_crawler sample_reference tt)
              "2024-02-29" (mk_datetime 2024 2 29 0 0 0 0 None))
    as (s' & o & stamp & new_log & Hy & Hr & Htz & Hy' & Hm & Hd & _).
  - reflexivity.
  - compute_eq.
  - exists s', o, stamp. split; [exact Hy|]. repeat split; assumption.
Defined.


(** Both links of the example carry the crawler's reference. *)
Lemma links_carry_reference_witness :
  props (mk_Link 0 1 [sample_reference]) = [sample_reference].
Proof.
  destruct (links_carry_reference (IYP0 := canned_iyp replies_complete)
              date_fromisoformat cloud_json (new_crawler sample_reference tt))
    as (s' & o & Hy & H).
  destruct run_with_complete_replies
    as (s'' & o' & Hy' & Href & _ & _ & _ & _ & _ & _ & _ & Hcat & _).
  destruct (run_yields_inj _ _ _ _ _ _ _ Hy Hy') as [-> ->].
  rewrite <- Href. apply H. rewrite Hcat, Href. apply elem_of_app. left.
  apply list_elem_of_here.
Defined.

(** The CATEGORIZED link of the example joins two returned ids. *)
Lemma link_endpoints_from_replies_witness :
  ∃ s' o,
    run_yields (IYP0 := canned_iyp replies_complete) date_fromisoformat
      cloud_json (new_crawler sample_reference tt) s' o
    ∧ 0 ∈ dict_values (v_prefix_id o)
    ∧ 1 ∈ dict_values (v_tag_id o).
Proof.
  destruct (link_endpoints_from_replies (IYP0 := canned_iyp replies_complete)
              date_fromisoformat cloud_json (new_crawler sample_reference tt))
    as (s' & o & Hy & H & _).
  destruct run_with_complete_replies
    as (s'' & o' & Hy' & _ & _ & _ & _ & _ & _ & _ & _ & Hcat & _).
  destruct (run_yields_inj _ _ _ _ _ _ _ Hy Hy') as [-> ->].
  exists s'', o'. split; [exact Hy'|].
  apply (H (mk_Link 0 1 [sample_reference])). rewrite Hcat.
  apply list_elem_of_here.
Defined.

(** With complete replies the example's record gets one link of each kind. *)
Lemma complete_replies_link_every_record_witness :
  ∃ s' o,
    run_yields (IYP0 := canned_iyp replies_complete) date_fromisoformat
      cloud_json (new_crawler sample_reference tt) s' o
    ∧ length (v_categorized_links o) = length (v_items o).
Proof.
  destruct run_with_complete_replies
    as (s' & o & Hy & _ & _ & HP & HS & HC & Hp & Ht & Hc & _).
  destruct (complete_replies_link_every_record
              (IYP0 := canned_iyp replies_complete)
              date_fromisoformat cloud_json (new_crawler sample_reference tt))
    as [_ H].
  destruct (H s' o Hy) as [Hlen _].
  - rewrite HP, Hp, dom_singleton_L. reflexivity.
  - rewrite HS, Ht, dom_singleton_L. reflexivity.
  - rewrite HC, Hc, dom_singleton_L. reflexivity.
  - exists s', o. split; assumption.
Defined.

(** Two entries in either order yield the same records up to order and
    the same prefixes. *)
Lemma entry_order_irrelevant_witness :
  ∃ s1 o1 s2 o2,
    run_yields (IYP0 := canned_iyp replies_complete) date_fromisoformat
      (mk_Data None (Some [entry_8888; dual_entry]))
      (new_crawler sample_reference tt) s1 o1
    ∧ run_yields (IYP0 := canned_iyp replies_complete) date_fromisoformat
        (mk_Data None (Some [dual_entry; entry_8888]))
        (new_crawler sample_reference tt) s2 o2
    ∧ v_items o1 ≡ₚ v_items o2
    ∧ (∀ x, x ∈ v_prefixes o1 ↔ x ∈ v_prefixes o2).
Proof.
  destruct (entry_order_irrelevant (IYP0 := canned_iyp replies_complete)
              date_fromisoformat None [entry_8888; dual_entry]
              [dual_entry; entry_8888] (new_crawler sample_reference tt))
    as (s1 & o1 & s2 & o2 & H1 & H2 & Hitems & HP & _).
  - apply perm_swap.
  - exists s1, o1, s2, o2. split; [exact H1|]. split; [exact H2|].
    split; assumption.
Defined.

(** The codes of us-west1 and europe-west9 are two upper-case letters. *)
Lemma region_table_literal_witness :
  is_alpha2 "US" = true ∧ ("asia-east1", "TW") ∈ REGION_TO_COUNTRY_items.
Proof.
  destruct region_table_literal as (_ & _ & Hiff & Hcode).
  split.
  - apply (Hcode "us-west1"). compute_eq.
  - apply Hiff. compute_eq.
Defined.

(** A constructor over a base that records its arguments. *)
Lemma init_then_run_witness :
  ∃ s1,
    Crawler_init (Store := unit) recording_base_init ORG URL NAME
      (new_crawler ∅ tt) = Ok (tt, s1)
    ∧ reference s1 = sample_reference.
Proof.
  destruct (init_then_run (IYP0 := canned_iyp replies_complete)
              date_fromisoformat recording_base_init ORG URL NAME
              (new_crawler ∅ tt)) as [_ H].
  destruct (H (mk_Crawler
                 (<["reference_name" := PStr NAME]>
                    (<["reference_url_data" := PStr URL]>
                       (<["reference_org" := PStr ORG]> ∅))) tt [] []))
    as (s1 & Hinit & Href & _).
  - reflexivity.
  - exists s1. split; [exact Hinit|]. rewrite Href. compute_eq.
Defined.
